(** * sports-data: leaderboards, barrel rates, matchups and workbook reports

    A shallow embedding of the three scripts of the repository
    ([fulldata.py], [hitters.py], [soft_matchups.py]) and the properties
    their description states about them.

    Conventions of the embedding.
    - JSON documents and Python objects are values of [Py.value]; a dict is
      an association list in insertion order, looked up by first match.
    - A Python exception is the [Raise] branch of [Py.result]; statements
      that run in sequence are chained with [x <- e ;; k].
    - Python floats are modelled by exact rationals ([Q]); NaN and [None]
      are both the missing value ([VNone] in a cell, [None] in a typed
      column).
    - An HTTP request is modelled by the JSON body it returned; a request
      made once per item is a function from the item to its body. *)

From Stdlib Require Import ZArith QArith Qabs List String Bool Lia Permutation Sorted.
Import ListNotations.
Local Open Scope string_scope.
Local Open Scope list_scope.
Local Open Scope Z_scope.

(* ================================================================== *)
(** ** Python values, exceptions and the builtins the scripts use     *)
(* ================================================================== *)

Module Py.

#[local] Set Warnings "-register-all".

Inductive value : Type :=
| VNone
| VBool (b : bool)
| VInt (z : Z)
| VFloat (q : Q)
| VStr (s : string)
| VList (l : list value)
| VDict (d : list (string * value)).

Inductive exn : Type :=
| KeyError
| IndexError
| TypeError
| AttributeError
| ZeroDivisionError
| ValueError
| FileNotFoundError
| BadZipFile.

Inductive result (A : Type) : Type :=
| Ok (a : A)
| Raise (e : exn).

Arguments Ok {A} a.
Arguments Raise {A} e.

Definition bind {A B : Type} (m : result A) (k : A -> result B) : result B :=
  match m with
  | Ok a => k a
  | Raise e => Raise e
  end.

Notation "x <- m ;; k" := (bind m (fun x => k))
  (at level 61, m at next level, right associativity).

(** A list comprehension or a loop body run on every item, left to right,
    stopping at the first exception. *)
Fixpoint mapM {A B : Type} (f : A -> result B) (l : list A) : result (list B) :=
  match l with
  | [] => Ok []
  | x :: xs => y <- f x ;; ys <- mapM f xs ;; Ok (y :: ys)
  end.

Definition record := list (string * value).

Fixpoint assoc (k : string) (d : record) : option value :=
  match d with
  | [] => None
  | (k', v) :: d' => if String.eqb k k' then Some v else assoc k d'
  end.

(** [bool(v)] *)
Definition truthy (v : value) : bool :=
  match v with
  | VNone => false
  | VBool b => b
  | VInt z => negb (z =? 0)
  | VFloat q => negb (Qeq_bool q 0)
  | VStr s => negb (String.eqb s "")
  | VList l => match l with [] => false | _ => true end
  | VDict d => match d with [] => false | _ => true end
  end.

(** [a or b] *)
Definition py_or (a b : value) : value := if truthy a then a else b.

(** [d.get(k, dflt)]; only dicts have the method. *)
Definition get (d : value) (k : string) (dflt : value) : result value :=
  match d with
  | VDict kv => Ok (match assoc k kv with Some v => v | None => dflt end)
  | _ => Raise AttributeError
  end.

(** [d[k]] with a string key. *)
Definition getitem (d : value) (k : string) : result value :=
  match d with
  | VDict kv => match assoc k kv with Some v => Ok v | None => Raise KeyError end
  | _ => Raise TypeError
  end.

(** [l[i]] with a non-negative integer index. *)
Definition getidx (l : value) (i : nat) : result value :=
  match l with
  | VList xs => match nth_error xs i with Some v => Ok v | None => Raise IndexError end
  | VStr s => match String.get i s with
              | Some c => Ok (VStr (String c EmptyString))
              | None => Raise IndexError
              end
  | VDict _ => Raise KeyError
  | _ => Raise TypeError
  end.

Fixpoint chars (s : string) : list value :=
  match s with
  | EmptyString => []
  | String c s' => VStr (String c EmptyString) :: chars s'
  end.

(** The items a [for] loop or a comprehension visits. *)
Definition iter (v : value) : result (list value) :=
  match v with
  | VList xs => Ok xs
  | VDict kv => Ok (map (fun p => VStr (fst p)) kv)
  | VStr s => Ok (chars s)
  | _ => Raise TypeError
  end.

(** The number a value stands for in arithmetic ([bool] is an [int]). *)
Definition as_number (v : value) : option Q :=
  match v with
  | VInt z => Some (inject_Z z)
  | VFloat q => Some q
  | VBool b => Some (inject_Z (Z.b2z b))
  | _ => None
  end.

(** [a / b], true division: the quotient is a float. *)
Definition truediv (a b : value) : result Q :=
  match as_number a, as_number b with
  | Some x, Some y => if Qeq_bool y 0 then Raise ZeroDivisionError else Ok (x / y)%Q
  | _, _ => Raise TypeError
  end.

(** [a > 0] *)
Definition gt0 (a : value) : result bool :=
  match as_number a with
  | Some x => Ok (negb (Qle_bool x 0))
  | None => Raise TypeError
  end.

(** Nearest integer, a tie going to the even neighbour. *)
Definition round_half_even (q : Q) : Z :=
  let n := Qnum q in
  let d := Zpos (Qden q) in
  let fl := n / d in
  match (2 * (n mod d) ?= d) with
  | Lt => fl
  | Gt => fl + 1
  | Eq => if Z.even fl then fl else fl + 1
  end.

(** [round(x, 4)] of a float: the nearest multiple of 1/10000. *)
Definition round4 (x : Q) : Q := (round_half_even (x * 10000)%Q # 10000)%Q.

End Py.
Import Py.

(* ================================================================== *)
(** ** The part of pandas the scripts use                            *)
(* ================================================================== *)

Module Pandas.

(** A frame is its column labels and its rows, every row holding one cell
    per column. *)
Record DataFrame : Type := mkDF {
  columns : list string;
  rows : list (list value)
}.

(** [pd.DataFrame(recs)] for a list of dicts.  The columns are the keys of
    the records (every list the scripts pass holds dicts built by one dict
    literal, so the first record's keys are all the keys); a key a record
    lacks gives a missing cell.  No record, no column. *)
Definition pd_DataFrame (recs : list record) : DataFrame :=
  match recs with
  | [] => mkDF [] []
  | r :: _ =>
      let cols := map fst r in
      mkDF cols
           (map (fun rc => map (fun c => match assoc c rc with
                                         | Some v => v
                                         | None => VNone
                                         end) cols) recs)
  end.

(** [df.empty]: some axis has length zero. *)
Definition empty (df : DataFrame) : bool :=
  match columns df, rows df with
  | [], _ => true
  | _, [] => true
  | _, _ => false
  end.

Fixpoint index_of (c : string) (cols : list string) : option nat :=
  match cols with
  | [] => None
  | c' :: cs => if String.eqb c c' then Some O
                else match index_of c cs with
                     | Some i => Some (S i)
                     | None => None
                     end
  end.

(** [df[c]] read as a column. *)
Definition getcol (df : DataFrame) (c : string) : result (list value) :=
  match index_of c (columns df) with
  | Some i => Ok (map (fun r => nth i r VNone) (rows df))
  | None => Raise KeyError
  end.

Fixpoint set_nth (i : nat) (v : value) (r : list value) : list value :=
  match i, r with
  | O, _ :: r' => v :: r'
  | S i', x :: r' => x :: set_nth i' v r'
  | _, [] => []
  end.

Fixpoint zip_with {A B C : Type} (f : A -> B -> C) (l : list A) (m : list B) : list C :=
  match l, m with
  | x :: l', y :: m' => f x y :: zip_with f l' m'
  | _, _ => []
  end.

(** [df[c] = vals] for a column of the frame's own length: an existing
    column is overwritten in place, a new one is added on the right. *)
Definition setcol (df : DataFrame) (c : string) (vals : list value) : DataFrame :=
  match index_of c (columns df) with
  | Some i => mkDF (columns df) (zip_with (fun r v => set_nth i v r) (rows df) vals)
  | None => mkDF (columns df ++ [c]) (zip_with (fun r v => r ++ [v]) (rows df) vals)
  end.

(** The cell of row [i] under column [c]. *)
Definition cell (df : DataFrame) (i : nat) (c : string) : option value :=
  match index_of c (columns df), nth_error (rows df) i with
  | Some j, Some r => nth_error r j
  | _, _ => None
  end.

End Pandas.
Import Pandas.

(** A float column with NaN for a missing entry, as the pitch-tracking
    source delivers its measurements. *)
Definition numcol := list (option Q).

Module Series.

(** [s.fillna(0)] *)
Definition fillna0 (x : option Q) : Q :=
  match x with
  | Some q => q
  | None => 0%Q
  end.

(** [s.between(lo, hi)], both ends included. *)
Definition between (x lo hi : Q) : bool := Qle_bool lo x && Qle_bool x hi.

Definition present (l : numcol) : list Q :=
  flat_map (fun x => match x with Some q => [q] | None => [] end) l.

Definition Qsum (l : list Q) : Q := fold_right Qplus 0%Q l.

(** [s.mean()]: NaN entries are skipped, in the sum and in the count; the
    mean of no entry at all is NaN. *)
Definition mean (l : numcol) : option Q :=
  match present l with
  | [] => None
  | xs => Some (Qred (Qsum xs / inject_Z (Z.of_nat (List.length xs))))
  end.

(** The entries of [vals] whose row carries the group label [k]. *)
Fixpoint group (k : Z) (keys : list Z) (vals : numcol) : numcol :=
  match keys, vals with
  | k' :: keys', v :: vals' =>
      if k =? k' then v :: group k keys' vals' else group k keys' vals'
  | _, _ => []
  end.

(** [df.groupby(key)[col].mean()] as a lookup: a label no row carries has
    no entry ([None]); a label some row carries has the mean of its group,
    which is NaN ([Some None]) when every entry of the group is NaN. *)
Definition groupby_mean (keys : list Z) (vals : numcol) (k : Z) : option (option Q) :=
  if existsb (Z.eqb k) keys then Some (mean (group k keys vals)) else None.

(** [ids.map(agg)] with a series as the mapper: the entry under the
    identifier, NaN when there is none.  Identifiers are JSON integers;
    any other cell finds no entry. *)
Definition map_lookup (agg : Z -> option (option Q)) (id : value) : value :=
  match id with
  | VInt k => match agg k with
              | Some (Some q) => VFloat q
              | _ => VNone
              end
  | _ => VNone
  end.

End Series.

(** One row of the pitch-tracking frame, cut down to the three columns the
    scripts read. *)
Record sample : Type := mkSample {
  batter : Z;
  launch_speed : option Q;
  launch_angle : option Q
}.

(* ================================================================== *)
(** ** The workbook file and pandas' ExcelWriter on it                *)
(* ================================================================== *)

Module Excel.

(** The sheets of a workbook, in tab order, each under its name. *)
Definition workbook := list (string * DataFrame).

(** What is at the workbook's path. *)
Inductive file : Type :=
| Missing
| NotZip
| Book (wb : workbook).

Definition exists_ (f : file) : bool :=
  match f with
  | Missing => false
  | _ => true
  end.

Definition is_zipfile (f : file) : bool :=
  match f with
  | Book _ => true
  | _ => false
  end.

Fixpoint sheet (name : string) (wb : workbook) : option DataFrame :=
  match wb with
  | [] => None
  | (n, d) :: wb' => if String.eqb name n then Some d else sheet name wb'
  end.

Definition sheet_names (wb : workbook) : list string := map fst wb.

(** [pd.ExcelWriter(path, engine="openpyxl", mode=mode, ...)]: mode ["w"]
    starts from a book without sheets whatever is at the path, any other
    mode loads the book that is there. *)
Definition open_writer (mode : string) (f : file) : result workbook :=
  if String.eqb mode "w" then Ok []
  else match f with
       | Missing => Raise FileNotFoundError
       | NotZip => Raise BadZipFile
       | Book wb => Ok wb
       end.

(** [df.to_excel(writer, sheet_name=name, index=False)] under
    [if_sheet_exists="replace"]: a sheet of that name is deleted and
    created again at its position with the new table, a new name gets a
    new last tab.  (A writer opened with mode ["w"] is only ever given
    names it does not hold yet.) *)
Fixpoint to_excel (wb : workbook) (name : string) (df : DataFrame) : workbook :=
  match wb with
  | [] => [(name, df)]
  | (n, d) :: wb' =>
      if String.eqb name n then (name, df) :: wb'
      else (n, d) :: to_excel wb' name df
  end.

End Excel.
Import Excel.

(* ================================================================== *)
(** ** hitters.py                                                     *)
(* ================================================================== *)

Module Hitters.

(** [fetch_daily]: one record per entry of the daily feed [runs]. *)
Definition daily_record (date_str : string) (rec : value) : result record :=
  batter <- get rec "batter_name" VNone ;;
  exit_vel <- get rec "hit_speed" VNone ;;
  distance <- get rec "hit_distance" VNone ;;
  pitch <- get rec "pitch_name" VNone ;;
  pitcher <- get rec "pitcher_name" VNone ;;
  Ok [("Date", VStr date_str); ("Batter", batter); ("Exit_Vel", exit_vel);
      ("Distance", distance); ("Pitch", pitch); ("Pitcher", pitcher)].

Definition fetch_daily (date_str : string) (runs : value) : result (DataFrame * string) :=
  items <- iter runs ;;
  recs <- mapM (daily_record date_str) items ;;
  Ok (pd_DataFrame recs, date_str).

(** [resp.json().get("stats", [])[0].get("splits", [])] *)
Definition stats_splits (resp : value) : result value :=
  stats <- get resp "stats" (VList []) ;;
  first <- getidx stats 0 ;;
  get first "splits" (VList []).

(** The dict [fetch_top50] builds for one split [s]. *)
Definition top50_record (s : value) : result record :=
  player <- getitem s "player" ;;
  name <- getitem player "fullName" ;;
  pid <- getitem player "id" ;;
  stat <- getitem s "stat" ;;
  hrs <- getitem stat "homeRuns" ;;
  games <- getitem stat "gamesPlayed" ;;
  avg <- getitem stat "avg" ;;
  slg <- getitem stat "slg" ;;
  at_bats <- get stat "atBats" VNone ;;
  ratio <- truediv hrs (py_or at_bats (VInt 1)) ;;
  ab <- get stat "atBats" (VInt 0) ;;
  Ok [("Batter", name); ("Player_ID", pid); ("HRs", hrs); ("Games", games);
      ("AVG", avg); ("SLG", slg); ("HR%", VFloat (round4 ratio)); ("AB", ab)].

Definition fetch_top50 (resp : value) : result DataFrame :=
  splits <- stats_splits resp ;;
  items <- iter splits ;;
  data <- mapM top50_record items ;;
  Ok (pd_DataFrame data).

Definition pitcher_record (s : value) : result record :=
  player <- getitem s "player" ;;
  name <- getitem player "fullName" ;;
  pid <- getitem player "id" ;;
  stat <- getitem s "stat" ;;
  so <- getitem stat "strikeOuts" ;;
  era <- getitem stat "era" ;;
  games <- getitem stat "gamesPlayed" ;;
  ip <- getitem stat "inningsPitched" ;;
  wins <- getitem stat "wins" ;;
  losses <- getitem stat "losses" ;;
  Ok [("Pitcher", name); ("Player_ID", pid); ("SO", so); ("ERA", era);
      ("Games", games); ("IP", ip); ("Wins", wins); ("Losses", losses)].

Definition fetch_top50_pitchers (resp : value) : result DataFrame :=
  splits <- stats_splits resp ;;
  items <- iter splits ;;
  data <- mapM pitcher_record items ;;
  Ok (pd_DataFrame data).

(** The flag [compute_barrel] gives one sample, 1 or 0. *)
Definition barrel_flag (launch_speed launch_angle : option Q) : Z :=
  let speed := Series.fillna0 launch_speed in
  let angle := Series.fillna0 launch_angle in
  let cond1 := Qle_bool 98 speed && Series.between angle 26 30 in
  let cond2 := Qle_bool 105 speed && Series.between angle 19 26 in
  let cond3 := Qle_bool 109 speed && Series.between angle 13 19 in
  Z.b2z (cond1 || cond2 || cond3).

Definition compute_barrel (df_sc : list sample) : list Z :=
  map (fun s => barrel_flag (launch_speed s) (launch_angle s)) df_sc.

(** The two aggregates of [enrich_top50], by player identifier. *)
Definition barrel_map (sc : list sample) : Z -> option (option Q) :=
  Series.groupby_mean (map batter sc)
                      (map (fun f => Some (inject_Z f)) (compute_barrel sc)).

Definition ev_map (sc : list sample) : Z -> option (option Q) :=
  Series.groupby_mean (map batter sc) (map launch_speed sc).

Definition enrich_top50 (sc : list sample) (df_top50 : DataFrame) : result DataFrame :=
  let df := df_top50 in
  ids <- getcol df "Player_ID" ;;
  let df := setcol df "Barrel%" (map (Series.map_lookup (barrel_map sc)) ids) in
  ids <- getcol df "Player_ID" ;;
  let df := setcol df "Avg_Exit_Vel" (map (Series.map_lookup (ev_map sc)) ids) in
  Ok df.

(** What [write_sheets] prints when it is done: the sheet names it
    reports, the last two only for tables that were passed. *)
Record notice : Type := Wrote {
  wrote_daily : string;
  wrote_top50 : string;
  wrote_pitchers : option string;
  wrote_matchups : option string
}.

Definition write_sheets (df_daily df_top50_enriched : DataFrame) (date_str : string)
    (df_pitchers df_matchups : option DataFrame) (output_xlsx : file)
  : result (file * notice) :=
  let output_xlsx :=
    if exists_ output_xlsx && negb (is_zipfile output_xlsx) then Missing
    else output_xlsx in
  let mode := if exists_ output_xlsx then "a" else "w" in
  let sheet_daily := (date_str ++ "_HR_Hitters")%string in
  let sheet_top50 := (date_str ++ "_Top_HR_Batters")%string in
  let sheet_pitchers := (date_str ++ "_Top_Pitchers")%string in
  let sheet_matchups := (date_str ++ "_Matchups")%string in
  writer <- open_writer mode output_xlsx ;;
  let writer := to_excel writer sheet_daily df_daily in
  let writer := to_excel writer sheet_top50 df_top50_enriched in
  let writer := match df_pitchers with
                | Some p => to_excel writer sheet_pitchers p
                | None => writer
                end in
  let writer := match df_matchups with
                | Some m => if negb (empty m) then to_excel writer sheet_matchups m
                            else writer
                | None => writer
                end in
  Ok (Book writer,
      Wrote sheet_daily sheet_top50
            (match df_pitchers with Some _ => Some sheet_pitchers | None => None end)
            (match df_matchups with Some _ => Some sheet_matchups | None => None end)).

(** The dict [fetch_today_matchups] builds for one game [g]. *)
Definition matchup_record (g : value) : result record :=
  teams <- getitem g "teams" ;;
  home_side <- getitem teams "home" ;;
  home_team <- getitem home_side "team" ;;
  home <- getitem home_team "name" ;;
  away_side <- getitem teams "away" ;;
  away_team <- getitem away_side "team" ;;
  away <- getitem away_team "name" ;;
  home_pitcher <- get home_side "probablePitcher" (VDict []) ;;
  away_pitcher <- get away_side "probablePitcher" (VDict []) ;;
  home_starter <- get home_pitcher "fullName" (VStr "") ;;
  home_starter_id <- get home_pitcher "id" (VStr "") ;;
  away_starter <- get away_pitcher "fullName" (VStr "") ;;
  away_starter_id <- get away_pitcher "id" (VStr "") ;;
  Ok [("Home_Team", home); ("Away_Team", away);
      ("Home_Starter", home_starter); ("Home_Starter_ID", home_starter_id);
      ("Away_Starter", away_starter); ("Away_Starter_ID", away_starter_id)].

(** Equality of two dict keys: numbers by value, strings and [None] by
    identity of content. *)
Definition key_eqb (a b : value) : bool :=
  match as_number a, as_number b with
  | Some x, Some y => Qeq_bool x y
  | _, _ => match a, b with
            | VStr s, VStr t => String.eqb s t
            | VNone, VNone => true
            | _, _ => false
            end
  end.

Definition hashable (v : value) : bool :=
  match v with
  | VList _ | VDict _ => false
  | _ => true
  end.

Fixpoint key_assoc (k : value) (m : list (value * record)) : option record :=
  match m with
  | [] => None
  | (k', r) :: m' => if key_eqb k k' then Some r else key_assoc k m'
  end.

Fixpoint distinct_keys (ks : list value) : bool :=
  match ks with
  | [] => true
  | k :: ks' => negb (existsb (key_eqb k) ks') && distinct_keys ks'
  end.

Fixpoint remove_nth {A : Type} (i : nat) (l : list A) : list A :=
  match i, l with
  | O, _ :: l' => l'
  | S i', x :: l' => x :: remove_nth i' l'
  | _, [] => []
  end.

(** [df.set_index(c).to_dict(orient="index")]: from each value of column
    [c] to the dict of the row's other cells; the column must exist and
    its values must be distinct. *)
Definition index_to_dict (df : DataFrame) (c : string) : result (list (value * record)) :=
  match index_of c (columns df) with
  | None => Raise KeyError
  | Some i =>
      let keys := map (fun r => nth i r VNone) (rows df) in
      if distinct_keys keys then
        Ok (map (fun r => (nth i r VNone,
                           combine (remove_nth i (columns df)) (remove_nth i r)))
                (rows df))
      else Raise ValueError
  end.

(** [stats_map.get(pid, {}).get(field, "")] *)
Definition stat_lookup (stats_map : list (value * record)) (field : string) (pid : value)
  : result value :=
  if hashable pid then
    Ok (match key_assoc pid stats_map with
        | Some r => match assoc field r with Some v => v | None => VStr "" end
        | None => VStr ""
        end)
  else Raise TypeError.

(** The body of the loop over the two sides. *)
Definition attach_side (stats_map : list (value * record)) (side : string) (df : DataFrame)
  : result DataFrame :=
  ids <- getcol df (side ++ "_Starter_ID")%string ;;
  eras <- mapM (stat_lookup stats_map "ERA") ids ;;
  let df := setcol df (side ++ "_ERA")%string eras in
  ids <- getcol df (side ++ "_Starter_ID")%string ;;
  sos <- mapM (stat_lookup stats_map "SO") ids ;;
  let df := setcol df (side ++ "_SO")%string sos in
  Ok df.

(** [fetch_today_matchups], from the body of the schedule response and the
    body of the pitcher leaderboard response (requested only when there is
    a matchup). *)
Definition fetch_today_matchups (schedule pitchers : value) : result DataFrame :=
  dates <- get schedule "dates" (VList []) ;;
  first <- getidx dates 0 ;;
  games <- get first "games" (VList []) ;;
  items <- iter games ;;
  matchups <- mapM matchup_record items ;;
  let df := pd_DataFrame matchups in
  if negb (empty df) then
    pitcher_stats <- fetch_top50_pitchers pitchers ;;
    stats_map <- index_to_dict pitcher_stats "Player_ID" ;;
    df <- attach_side stats_map "Home" df ;;
    df <- attach_side stats_map "Away" df ;;
    Ok df
  else Ok df.

End Hitters.

(* ================================================================== *)
(** ** fulldata.py                                                    *)
(* ================================================================== *)

Module Fulldata.

(** A loop that updates one variable per item, stopping at the first
    exception. *)
Fixpoint foldM {A S : Type} (f : S -> A -> result S) (l : list A) (s : S) : result S :=
  match l with
  | [] => Ok s
  | x :: xs => s' <- f s x ;; foldM f xs s'
  end.

(** The dict the first loop of [fetch_top75_and_enrich] appends for one
    split [s]. *)
Definition top75_record (s : value) : result record :=
  pl <- getitem s "player" ;;
  st <- getitem s "stat" ;;
  at_bats <- get st "atBats" (VInt 0) ;;
  let ab := py_or at_bats (VInt 0) in
  positive <- gt0 ab ;;
  hr_pct <- (if positive : bool then
               hr <- get st "homeRuns" (VInt 0) ;;
               ratio <- truediv hr ab ;;
               Ok (VFloat (round4 ratio))
             else Ok VNone) ;;
  pid <- getitem pl "id" ;;
  name <- getitem pl "fullName" ;;
  hrs <- get st "homeRuns" VNone ;;
  games <- get st "gamesPlayed" VNone ;;
  avg <- get st "avg" VNone ;;
  slg <- get st "slg" VNone ;;
  Ok [("Player_ID", pid); ("Batter", name); ("HRs", hrs); ("Games", games);
      ("AVG", avg); ("SLG", slg); ("HR%", hr_pct); ("AB", ab)].

(** Step 1 of [fetch_top75_and_enrich]: the season snapshot as a frame. *)
Definition top75_base (resp : value) : result DataFrame :=
  stats <- get resp "stats" (VList []) ;;
  first <- getidx stats 0 ;;
  splits <- get first "splits" (VList []) ;;
  items <- iter splits ;;
  base <- mapM top75_record items ;;
  Ok (pd_DataFrame base).

(** The barrel flag of one sample, as step 2 computes it in place. *)
Definition barrel_flag (launch_speed launch_angle : option Q) : Z :=
  let sp := Series.fillna0 launch_speed in
  let ag := Series.fillna0 launch_angle in
  let cond1 := Qle_bool 98 sp && Series.between ag 26 30 in
  let cond2 := Qle_bool 105 sp && Series.between ag 19 26 in
  let cond3 := Qle_bool 109 sp && Series.between ag 13 19 in
  Z.b2z (cond1 || cond2 || cond3).

Definition barrel_map (sc : list sample) : Z -> option (option Q) :=
  Series.groupby_mean
    (map batter sc)
    (map (fun s => Some (inject_Z (barrel_flag (launch_speed s) (launch_angle s)))) sc).

Definition ev_map (sc : list sample) : Z -> option (option Q) :=
  Series.groupby_mean (map batter sc) (map launch_speed sc).

Definition fetch_top75_and_enrich (resp : value) (sc : list sample) : result DataFrame :=
  df <- top75_base resp ;;
  ids <- getcol df "Player_ID" ;;
  let df := setcol df "Barrel%" (map (Series.map_lookup (barrel_map sc)) ids) in
  ids <- getcol df "Player_ID" ;;
  let df := setcol df "Avg_Exit_Vel" (map (Series.map_lookup (ev_map sc)) ids) in
  Ok df.

(** [v == s] for a string literal [s]. *)
Definition is_str (v : value) (s : string) : bool :=
  match v with
  | VStr t => String.eqb t s
  | _ => false
  end.

(** The inner loop over a play's sub-events: it leaves [(None, None)] in
    [(exit_vel, distance)] unless it meets a sub-event described as
    ["home_run"], reads that one's hit data and breaks. *)
Fixpoint find_home_run (play_events : list value) : result (value * value) :=
  match play_events with
  | [] => Ok (VNone, VNone)
  | ev :: rest =>
      d <- get ev "details" (VDict []) ;;
      details <- get d "type" (VDict []) ;;
      description <- get details "description" VNone ;;
      if is_str description "home_run" then
        hit_data <- get ev "hitData" (VDict []) ;;
        let hd := py_or hit_data (VDict []) in
        exit_vel <- get hd "launchSpeed" VNone ;;
        distance <- get hd "totalDistance" VNone ;;
        Ok (exit_vel, distance)
      else find_home_run rest
  end.

(** The body of the loop over the plays of a game, on the list [rows]. *)
Definition play_step (dstr : string) (rows : list record) (play : value)
  : result (list record) :=
  res <- getitem play "result" ;;
  event_type <- getitem res "eventType" ;;
  if negb (is_str event_type "home_run") then Ok rows
  else
    matchup <- getitem play "matchup" ;;
    bat <- getitem matchup "batter" ;;
    pit <- getitem matchup "pitcher" ;;
    pitch <- get matchup "pitchType" VNone ;;
    play_events <- get play "playEvents" (VList []) ;;
    evs <- iter play_events ;;
    found <- find_home_run evs ;;
    batter_name <- get bat "fullName" VNone ;;
    pitcher_name <- get pit "fullName" VNone ;;
    Ok (rows ++ [[("Date", VStr dstr); ("Batter", batter_name);
                  ("Exit_Vel", fst found); ("Distance", snd found);
                  ("Pitch", pitch); ("Pitcher", pitcher_name)]]).

(** The body of the loop over the day's games; [live_feed pk] is the body
    of the live-feed response for game [pk]. *)
Definition game_step (live_feed : value -> value) (dstr : string)
    (rows : list record) (pk : value) : result (list record) :=
  let feed := live_feed pk in
  live_data <- getitem feed "liveData" ;;
  plays <- getitem live_data "plays" ;;
  all_plays <- getitem plays "allPlays" ;;
  items <- iter all_plays ;;
  foldM (play_step dstr) items rows.

(** [fetch_daily_homers_for dstr], from the body of the schedule
    response for that date. *)
Definition fetch_daily_homers_for (live_feed : value -> value) (dstr : string)
    (schedule : value) : result DataFrame :=
  sched <- get schedule "dates" (VList []) ;;
  if negb (truthy sched) then Ok (mkDF [] [])
  else
    first <- getidx sched 0 ;;
    games <- getitem first "games" ;;
    gs <- iter games ;;
    gamePks <- mapM (fun g => getitem g "gamePk") gs ;;
    rows <- foldM (game_step live_feed dstr) gamePks [] ;;
    Ok (pd_DataFrame rows).

Definition write_sheet (df : DataFrame) (name mode : string) (workbook : file)
  : result file :=
  if String.eqb mode "w" then
    ew <- open_writer "w" workbook ;;
    Ok (Book (to_excel ew name df))
  else
    ew <- open_writer "a" workbook ;;
    Ok (Book (to_excel ew name df)).

(** The lines [main] prints. *)
Inductive notice : Type :=
| WroteTop
| NoHomers (dstr : string)
| WroteDay (name : string) (nrows : nat).

(** One round of the loop over the days of the window, on the workbook
    file and the lines printed so far; [schedule dstr] is the body of the
    schedule response for the date. *)
Definition day_step (schedule : string -> value) (live_feed : value -> value)
    (st : file * list notice) (dstr : string) : result (file * list notice) :=
  df <- fetch_daily_homers_for live_feed dstr (schedule dstr) ;;
  let name := (dstr ++ "_HR_Hitters")%string in
  if empty df then Ok (fst st, snd st ++ [NoHomers dstr])
  else
    workbook <- write_sheet df name "a" (fst st) ;;
    Ok (workbook, snd st ++ [WroteDay name (List.length (rows df))]).

(** [main]; [days] are the dates from [START_DATE] to [END_DATE], each
    formatted as year-month-day. *)
Definition main (top75_resp : value) (sc : list sample) (schedule : string -> value)
    (live_feed : value -> value) (days : list string) (workbook : file)
  : result (file * list notice) :=
  top75 <- fetch_top75_and_enrich top75_resp sc ;;
  let workbook := if exists_ workbook then Missing else workbook in
  workbook <- write_sheet top75 "data_Top_HR_Batters" "w" workbook ;;
  foldM (day_step schedule live_feed) days (workbook, [WroteTop]).

End Fulldata.

(* ================================================================== *)
(** ** soft_matchups.py                                               *)
(* ================================================================== *)

Module SoftMatchups.

Definition fetch_schedule (resp : value) : result value :=
  dates <- get resp "dates" (VList []) ;;
  if truthy dates then
    first <- getidx dates 0 ;;
    get first "games" (VList [])
  else Ok (VList []).

(** [float(v)]; [parse] reads a numeric string, [None] when the string
    does not spell a number. *)
Definition float_ (parse : string -> option Q) (v : value) : result Q :=
  match v with
  | VInt z => Ok (inject_Z z)
  | VFloat q => Ok q
  | VBool b => Ok (inject_Z (Z.b2z b))
  | VStr s => match parse s with
              | Some q => Ok q
              | None => Raise ValueError
              end
  | _ => Raise TypeError
  end.

(** [fetch_pitcher_era pid]; [people pid] is the body of the per-pitcher
    response, requested only for an identifier that is not [None]. *)
Definition fetch_pitcher_era (parse : string -> option Q) (people : value -> value)
    (pid : value) : result (option Q) :=
  match pid with
  | VNone => Ok None
  | _ =>
      ppl <- get (people pid) "people" (VList []) ;;
      if negb (truthy ppl) then Ok None
      else
        first <- getidx ppl 0 ;;
        stats <- get first "stats" (VList []) ;;
        if negb (truthy stats) then Ok None
        else
          first <- getidx stats 0 ;;
          splits <- get first "splits" (VList []) ;;
          if negb (truthy splits) then Ok None
          else
            first <- getidx splits 0 ;;
            stat <- get first "stat" (VDict []) ;;
            era <- get stat "era" VNone ;;
            match float_ parse era with
            | Ok x => Ok (Some x)
            | Raise TypeError => Ok None
            | Raise ValueError => Ok None
            | Raise e => Raise e
            end
  end.

(** [max(eras)] of a non-empty list: the first of the largest items. *)
Fixpoint py_max (x : Q) (rest : list Q) : Q :=
  match rest with
  | [] => x
  | y :: rest' => py_max (if Qle_bool y x then x else y) rest'
  end.

(** Lines 65-68 of [main]. *)
Definition softness (home_era away_era : option Q) : option Q :=
  let eras := Series.present [home_era; away_era] in
  match eras with
  | [] => None
  | e :: es => Some (py_max e es)
  end.

(** One row of the table [main] builds. *)
Record matchup : Type := mkMatchup {
  Away : value;
  Home : value;
  Away_Starter : value;
  Away_ERA : option Q;
  Home_Starter : value;
  Home_ERA : option Q;
  Softness : option Q
}.

Definition matchup_row (parse : string -> option Q) (people : value -> value)
    (g : value) : result matchup :=
  teams <- getitem g "teams" ;;
  home_side <- getitem teams "home" ;;
  team <- getitem home_side "team" ;;
  home_team <- getitem team "name" ;;
  away_side <- getitem teams "away" ;;
  team <- getitem away_side "team" ;;
  away_team <- getitem team "name" ;;
  home_pitcher <- get home_side "probablePitcher" (VDict []) ;;
  away_pitcher <- get away_side "probablePitcher" (VDict []) ;;
  home_id <- get home_pitcher "id" VNone ;;
  home_era <- fetch_pitcher_era parse people home_id ;;
  away_id <- get away_pitcher "id" VNone ;;
  away_era <- fetch_pitcher_era parse people away_id ;;
  away_starter <- get away_pitcher "fullName" (VStr "") ;;
  home_starter <- get home_pitcher "fullName" (VStr "") ;;
  Ok (mkMatchup away_team home_team away_starter away_era home_starter home_era
                (softness home_era away_era)).

(** Ascending insertion of [r] by its key; among equal keys [r] goes
    first. *)
Fixpoint insert_by (key : matchup -> Q) (r : matchup) (l : list matchup) : list matchup :=
  match l with
  | [] => [r]
  | x :: l' => if Qle_bool (key r) (key x) then r :: l
               else x :: insert_by key r l'
  end.

(** [argsort] on the keys that are not NaN, ascending.  (numpy does not
    fix the order among equal keys; this one keeps them in input order.) *)
Definition argsort (key : matchup -> Q) (l : list matchup) : list matchup :=
  fold_right (insert_by key) [] l.

Definition key_of (r : matchup) : Q := Series.fillna0 (Softness r).

Definition isna (r : matchup) : bool :=
  match Softness r with
  | None => true
  | Some _ => false
  end.

(** [df.sort_values("Softness", ascending=False)], the way pandas
    orders one column: the rows whose key is NaN are set aside, the others
    are reversed, sorted ascending and reversed again, and the NaN rows
    are put last ([na_position="last"]). *)
Definition sort_values_desc (df : list matchup) : list matchup :=
  let non_nans := filter (fun r => negb (isna r)) df in
  let nans := filter isna df in
  rev (argsort key_of (rev non_nans)) ++ nans.

(** What [main] prints. *)
Inductive output : Type :=
| NoGames
| Table (df : list matchup).

Definition main (parse : string -> option Q) (people : value -> value)
    (schedule : value) : result output :=
  games <- fetch_schedule schedule ;;
  gs <- iter games ;;
  rows <- mapM (matchup_row parse people) gs ;;
  match rows with
  | [] => Ok NoGames
  | _ => Ok (Table (sort_values_desc rows))
  end.

End SoftMatchups.

(* ================================================================== *)
(** ** hitters.py, run as a script                                    *)
(* ================================================================== *)

Module HittersScript.

(** The block under [if __name__ == "__main__"]: [runs], [top50] and
    [schedule] are the bodies of the daily feed, of the hitting leaderboard
    and of the schedule response; the pitcher leaderboard is requested
    twice, once for its own sheet ([pitchers]) and once inside
    [fetch_today_matchups] ([pitchers']); [output_xlsx] is what is at the
    path chosen on the command line or at the default path. *)
Definition main (date_str : string) (runs top50 : value) (sc : list sample)
    (pitchers schedule pitchers' : value) (output_xlsx : file)
  : result (file * Hitters.notice) :=
  daily <- Hitters.fetch_daily date_str runs ;;
  top50_df <- Hitters.fetch_top50 top50 ;;
  enriched <- Hitters.enrich_top50 sc top50_df ;;
  pitchers_df <- Hitters.fetch_top50_pitchers pitchers ;;
  matchups_df <- Hitters.fetch_today_matchups schedule pitchers' ;;
  Hitters.write_sheets (fst daily) enriched (snd daily)
                       (Some pitchers_df) (Some matchups_df) output_xlsx.

End HittersScript.

(* ================================================================== *)
(** ** Sample inputs                                                  *)
(* ================================================================== *)

Module Samples.

(** A schedule response for a day without games. *)
Definition no_games : value := VDict [("dates", VList [])].

(** A leaderboard split. *)
Definition split (id : Z) (name : string) (hr ab : Z) : value :=
  VDict [("player", VDict [("id", VInt id); ("fullName", VStr name)]);
         ("stat", VDict [("homeRuns", VInt hr); ("gamesPlayed", VInt 60);
                         ("avg", VStr ".250"); ("slg", VStr ".500");
                         ("atBats", VInt ab)])].

(** A leaderboard frame of two players. *)
Definition leaderboard : DataFrame :=
  mkDF ["Batter"; "Player_ID"; "HRs"]
       [[VStr "A"; VInt 7; VInt 50]; [VStr "B"; VInt 8; VInt 40]].

(** Pitch-tracking rows: two of player 7, the second without a
    measurement, and one of player 9. *)
Definition statcast : list sample :=
  [mkSample 7 (Some 100%Q) (Some 28%Q); mkSample 7 None None;
   mkSample 9 (Some 90%Q) (Some 10%Q)].

(** A game of the schedule, with or without announced starters. *)
Definition side (team : string) (pitcher : option (Z * string)) : value :=
  VDict (("team", VDict [("name", VStr team)])
         :: match pitcher with
            | Some (id, name) =>
                [("probablePitcher", VDict [("id", VInt id); ("fullName", VStr name)])]
            | None => []
            end).

Definition game (pk : Z) (home : string) (hp : option (Z * string))
    (away : string) (ap : option (Z * string)) : value :=
  VDict [("gamePk", VInt pk);
         ("teams", VDict [("home", side home hp); ("away", side away ap)])].

(** Three games: both starters known, none announced, one announced. *)
Definition schedule : value :=
  VDict [("dates",
          VList [VDict [("games",
                         VList [game 101 "Cubs" (Some (1, "P1")) "Mets" (Some (2, "P2"));
                                game 102 "Reds" None "Rays" None;
                                game 103 "Twins" None "Royals" (Some (3, "P3"))])]])].

(** The per-pitcher responses: ERA 3.50 for pitcher 1, 4.80 for pitcher 2,
    5.25 for pitcher 3, no season line for anyone else. *)
Definition era_response (era : string) : value :=
  VDict [("people",
          VList [VDict [("stats",
                         VList [VDict [("splits",
                                        VList [VDict [("stat",
                                                       VDict [("era", VStr era)])]])]])]])].

Definition people (pid : value) : value :=
  match pid with
  | VInt 1 => era_response "3.50"
  | VInt 2 => era_response "4.80"
  | VInt 3 => era_response "5.25"
  | _ => VDict [("people", VList [])]
  end.

Definition parse_era (s : string) : option Q :=
  if String.eqb s "3.50" then Some (35 # 10)%Q
  else if String.eqb s "4.80" then Some (48 # 10)%Q
  else if String.eqb s "5.25" then Some (525 # 100)%Q
  else None.

(** The table the softness ranker prints for [schedule]. *)
Definition ranked : list SoftMatchups.matchup :=
  [SoftMatchups.mkMatchup (VStr "Royals") (VStr "Twins") (VStr "P3") (Some 5.25%Q)
                          (VStr "") None (Some 5.25%Q);
   SoftMatchups.mkMatchup (VStr "Mets") (VStr "Cubs") (VStr "P2") (Some 4.8%Q)
                          (VStr "P1") (Some 3.5%Q) (Some 4.8%Q);
   SoftMatchups.mkMatchup (VStr "Rays") (VStr "Reds") (VStr "") None
                          (VStr "") None None].

(** A pitcher leaderboard response with pitcher 1 alone. *)
Definition pitchers : value :=
  VDict [("stats",
          VList [VDict [("splits",
                         VList [VDict [("player", VDict [("id", VInt 1);
                                                          ("fullName", VStr "P1")]);
                                       ("stat", VDict [("strikeOuts", VInt 80);
                                                       ("era", VStr "3.50");
                                                       ("gamesPlayed", VInt 12);
                                                       ("inningsPitched", VStr "70.1");
                                                       ("wins", VInt 6);
                                                       ("losses", VInt 3)])]])]])].

(** A play of a live feed. *)
Definition play (event_type : string) (bat pit : string) (events : list value) : value :=
  VDict [("result", VDict [("eventType", VStr event_type)]);
         ("matchup", VDict [("batter", VDict [("fullName", VStr bat)]);
                            ("pitcher", VDict [("fullName", VStr pit)]);
                            ("pitchType", VStr "FF")]);
         ("playEvents", VList events)].

(** A sub-event with a type description and, optionally, hit data. *)
Definition sub_event (description : string) (hit : option (Q * Q)) : value :=
  VDict (("details", VDict [("type", VDict [("description", VStr description)])])
         :: match hit with
            | Some (speed, distance) =>
                [("hitData", VDict [("launchSpeed", VFloat speed);
                                    ("totalDistance", VFloat distance)])]
            | None => []
            end).

Definition feed_of (plays : list value) : value :=
  VDict [("liveData", VDict [("plays", VDict [("allPlays", VList plays)])])].

(** A doubleheader: game 201 has a single and a home run whose second
    sub-event is the home run, game 202 has a home run none of whose
    sub-events is described as one. *)
Definition doubleheader : value :=
  VDict [("dates", VList [VDict [("games", VList [VDict [("gamePk", VInt 201)];
                                                  VDict [("gamePk", VInt 202)]])]])].

Definition live_feed (pk : value) : value :=
  match pk with
  | VInt 201 =>
      feed_of [play "single" "B1" "P1" [sub_event "ball" None];
               play "home_run" "B2" "P1"
                    [sub_event "ball" None;
                     sub_event "home_run" (Some (108.5%Q, 420%Q));
                     sub_event "home_run" (Some (99%Q, 380%Q))]]
  | VInt 202 =>
      feed_of [play "home_run" "B3" "P2" [sub_event "strike" (Some (101%Q, 400%Q))]]
  | _ => feed_of []
  end.

End Samples.

(* ================================================================== *)
(** ** Vocabulary of the properties                                   *)
(* ================================================================== *)

(** The at-bats entry of a stat dict: the integer [ab], or no entry at
    all, in which case [ab] is zero. *)
Definition at_bats_entry (st : record) (ab : Z) : Prop :=
  assoc "atBats" st = Some (VInt ab) \/ (assoc "atBats" st = None /\ ab = 0).

(** The three bands of the barrel rule on a speed and an angle. *)
Definition in_band (speed angle : Q) : Prop :=
  ((98 <= speed /\ 26 <= angle /\ angle <= 30)
   \/ (105 <= speed /\ 19 <= angle /\ angle <= 26)
   \/ (109 <= speed /\ 13 <= angle /\ angle <= 19))%Q.

(** Every row of the frame has one cell per column. *)
Definition well_formed (df : DataFrame) : Prop :=
  Forall (fun r => List.length r = List.length (columns df)) (rows df).

(** A frame extended on the right by two columns computed from the cell
    at position [i] of each row. *)
Definition extend2 (c1 c2 : string) (f1 f2 : value -> value) (i : nat)
    (df : DataFrame) : DataFrame :=
  mkDF (columns df ++ [c1; c2])
       (map (fun r => r ++ [f1 (nth i r VNone); f2 (nth i r VNone)]) (rows df)).


(** The pitch-tracking rows of player [k]. *)
Definition samples_of (k : Z) (sc : list sample) : list sample :=
  filter (fun s => k =? batter s) sc.

(** The arithmetic mean of a list of numbers. *)
Definition mean_of (xs : list Q) : Q :=
  (Series.Qsum xs / inject_Z (Z.of_nat (List.length xs)))%Q.

(** The barrel flags of some samples, as numbers. *)
Definition flags_of (g : list sample) : list Q :=
  map (fun s => inject_Z (Hitters.barrel_flag (launch_speed s) (launch_angle s))) g.

(** The launch speeds that were measured among some samples. *)
Definition speeds_of (g : list sample) : list Q :=
  Series.present (map launch_speed g).

(** The average exit velocity in the words of the description: the launch
    speeds of the player's samples summed, divided by the number of all of
    the player's samples, those without a launch speed included. *)
Definition claimed_avg_exit_vel (sc : list sample) (k : Z) : Q :=
  (Series.Qsum (speeds_of (samples_of k sc))
   / inject_Z (Z.of_nat (List.length (samples_of k sc))))%Q.

(** Softer or as soft: the order of the printed table, top to bottom. *)
Definition softer_eq (x y : SoftMatchups.matchup) : Prop :=
  (SoftMatchups.key_of y <= SoftMatchups.key_of x)%Q.

Definition harder_eq (x y : SoftMatchups.matchup) : Prop :=
  (SoftMatchups.key_of x <= SoftMatchups.key_of y)%Q.

(** The cell the matchup builder attaches for a starter identifier: the
    pitcher's statistic when the lookup finds the pitcher, the empty
    string otherwise. *)
Definition stat_or_empty (stats_map : list (value * record)) (field : string)
    (pid : value) : value :=
  match Hitters.key_assoc pid stats_map with
  | Some r => match assoc field r with Some v => v | None => VStr "" end
  | None => VStr ""
  end.


(** An entry of a dict, [None] when the dict does not have it. *)
Definition entry (k : string) (d : record) : value :=
  match assoc k d with
  | Some v => v
  | None => VNone
  end.




(** The computation does not end in the exception [e]. *)
Definition never {A : Type} (e : exn) (m : result A) : Prop := m <> Raise e.

Module Samples2.

(** A hitting leaderboard response with two splits. *)
Definition top50_response : value :=
  VDict [("stats",
          VList [VDict [("splits", VList [Samples.split 7 "A" 50 200;
                                          Samples.split 8 "B" 0 0])]])].

(** A split whose stat dict has no home-run entry. *)
Definition split_without_home_runs : record :=
  [("player", VDict [("id", VInt 7); ("fullName", VStr "A")]);
   ("stat", VDict [("gamesPlayed", VInt 60); ("atBats", VInt 200)])].

(** The enriched leaderboard of [top50_response] and [Samples.statcast], as
    the day-range script computes it. *)
Definition top75_frame : DataFrame :=
  Eval vm_compute in
    match Fulldata.fetch_top75_and_enrich top50_response Samples.statcast with
    | Ok df => df
    | Raise _ => mkDF [] []
    end.

(** Schedule responses by date: a doubleheader on 2025-06-10, no games on
    any other day. *)
Definition schedule_of (dstr : string) : value :=
  if String.eqb dstr "2025-06-10" then Samples.doubleheader else Samples.no_games.

(** A schedule response whose date entry lists no game. *)
Definition empty_day : value :=
  VDict [("dates", VList [VDict [("games", VList [])]])].

(** One split of a pitcher leaderboard. *)
Definition pitcher_split (id : Z) (name era : string) (so : Z) : value :=
  VDict [("player", VDict [("id", VInt id); ("fullName", VStr name)]);
         ("stat", VDict [("strikeOuts", VInt so); ("era", VStr era);
                         ("gamesPlayed", VInt 12); ("inningsPitched", VStr "70.1");
                         ("wins", VInt 6); ("losses", VInt 3)])].

(** A pitcher leaderboard response without splits, and one that lists
    pitcher 1 twice. *)
Definition no_pitchers : value :=
  VDict [("stats", VList [VDict [("splits", VList [])]])].

Definition pitcher_listed_twice : value :=
  VDict [("stats",
          VList [VDict [("splits", VList [pitcher_split 1 "P1" "3.50" 80;
                                          pitcher_split 2 "P2" "4.80" 70;
                                          pitcher_split 1 "P1" "2.10" 30])]])].

(** A run of the hitters script on a game day, the workbook not yet
    there: what it returns. *)
Definition script_output : file * Hitters.notice :=
  Eval vm_compute in
    match HittersScript.main "2025-06-10"
            (VList [VDict [("batter_name", VStr "B2"); ("hit_speed", VFloat 108.5)]])
            top50_response Samples.statcast Samples.pitchers Samples.schedule
            Samples.pitchers Missing with
    | Ok out => out
    | Raise _ => (Missing, Hitters.Wrote "" "" None None)
    end.

End Samples2.

(** The row of the daily table for one record of the feed. *)
Definition daily_row (date_str : string) (rec : record) : list value :=
  [VStr date_str; entry "batter_name" rec; entry "hit_speed" rec;
   entry "hit_distance" rec; entry "pitch_name" rec; entry "pitcher_name" rec].

(** The strings of the list are pairwise different. *)
Fixpoint distinct_strings (l : list string) : bool :=
  match l with
  | [] => true
  | x :: l' => negb (existsb (String.eqb x) l') && distinct_strings l'
  end.


(** The name of the sheet of a day in the day-range workbook. *)
Definition day_sheet (dstr : string) : string := (dstr ++ "_HR_Hitters")%string.

(** The workbook a writer starts from: the sheets of the workbook at the
    path, none when there is no workbook there. *)
Definition sheets_before (f : file) : workbook :=
  match f with
  | Book wb => wb
  | _ => []
  end.

(* ================================================================== *)
(** ** Properties                                                     *)
(* ================================================================== *)

Section Rounding.



End Rounding.

Section Builtins.

Lemma gt0_int (z : Z) : gt0 (VInt z) = Ok (0 <? z).
Proof.
  unfold gt0, as_number, Qle_bool, inject_Z. cbn [Qnum Qden].
  f_equal. rewrite Z.mul_1_r. cbn.
  destruct (Z.leb_spec z 0), (Z.ltb_spec 0 z); try reflexivity; lia.
Qed.

Lemma truediv_int (a b : Z) :
  b <> 0 -> truediv (VInt a) (VInt b) = Ok (inject_Z a / inject_Z b)%Q.
Proof.
  intros Hb. unfold truediv, as_number.
  destruct (Qeq_bool (inject_Z b) 0) eqn:E; [| reflexivity].
  apply Qeq_bool_eq in E. unfold Qeq, inject_Z in E. cbn in E. lia.
Qed.

Lemma truthy_int (z : Z) : truthy (VInt z) = negb (z =? 0).
Proof. reflexivity. Qed.

Lemma get_dict (d : record) (k : string) (dflt : value) :
  get (VDict d) k dflt = Ok (match assoc k d with Some v => v | None => dflt end).
Proof. reflexivity. Qed.

Lemma getitem_dict (d : record) (k : string) (v : value) :
  assoc k d = Some v -> getitem (VDict d) k = Ok v.
Proof. intros H. unfold getitem. now rewrite H. Qed.

End Builtins.

(* ------------------------------------------------------------------ *)
(** *** Home-run percentage                                           *)
(* ------------------------------------------------------------------ *)




(* ------------------------------------------------------------------ *)
(** *** Barrel classification                                         *)
(* ------------------------------------------------------------------ *)

Lemma between_iff (x lo hi : Q) :
  Series.between x lo hi = true <-> (lo <= x /\ x <= hi)%Q.
Proof.
  unfold Series.between. rewrite andb_true_iff, !Qle_bool_iff. reflexivity.
Qed.

Lemma barrel_flag_iff (sp ag : option Q) :
  Hitters.barrel_flag sp ag = 1
  <-> in_band (Series.fillna0 sp) (Series.fillna0 ag).
Proof.
  unfold Hitters.barrel_flag, in_band.
  set (speed := Series.fillna0 sp). set (angle := Series.fillna0 ag).
  cbv zeta.
  destruct (Qle_bool 98 speed && Series.between angle 26 30
            || Qle_bool 105 speed && Series.between angle 19 26
            || Qle_bool 109 speed && Series.between angle 13 19) eqn:E.
  - split; [intros _ | reflexivity].
    rewrite !orb_true_iff, !andb_true_iff, !between_iff, !Qle_bool_iff in E.
    tauto.
  - split; [discriminate |]. intros H. exfalso.
    assert (T : Qle_bool 98 speed && Series.between angle 26 30
                || Qle_bool 105 speed && Series.between angle 19 26
                || Qle_bool 109 speed && Series.between angle 13 19 = true).
    { rewrite !orb_true_iff, !andb_true_iff, !between_iff, !Qle_bool_iff. tauto. }
    congruence.
Qed.

(** C2.  The barrel flag is a function of the launch speed and the launch
    angle with value 1 or 0; it is 1 exactly when the speed and the angle,
    a missing one read as 0, lie in one of the three bands; a sample with a
    missing speed or a missing angle is never a barrel; (100, 28) is a
    barrel, (100, 10) and (missing, missing) are not; and the rule written
    out in [fetch_top75_and_enrich] is the rule of [compute_barrel]. *)
Theorem C2_barrel_classification (sp ag : option Q) :
  (Hitters.barrel_flag sp ag = 1 \/ Hitters.barrel_flag sp ag = 0)
  /\ (Hitters.barrel_flag sp ag = 1
      <-> in_band (Series.fillna0 sp) (Series.fillna0 ag))
  /\ Hitters.barrel_flag None ag = 0
  /\ Hitters.barrel_flag sp None = 0
  /\ Hitters.barrel_flag (Some 100%Q) (Some 28%Q) = 1
  /\ Hitters.barrel_flag (Some 100%Q) (Some 10%Q) = 0
  /\ Hitters.barrel_flag None None = 0
  /\ Fulldata.barrel_flag sp ag = Hitters.barrel_flag sp ag
  /\ Hitters.compute_barrel
       [mkSample 1 (Some 100%Q) (Some 28%Q); mkSample 1 (Some 100%Q) (Some 10%Q);
        mkSample 2 None None]
     = [1; 0; 0].
Proof.
  split; [| split; [| split; [| split]]].
  - unfold Hitters.barrel_flag. cbv zeta.
    match goal with |- Z.b2z ?b = _ \/ _ => destruct b end; [left | right]; reflexivity.
  - apply barrel_flag_iff.
  - unfold Hitters.barrel_flag, Series.fillna0. cbv zeta.
    replace (Qle_bool 98 0) with false by reflexivity.
    replace (Qle_bool 105 0) with false by reflexivity.
    replace (Qle_bool 109 0) with false by reflexivity.
    reflexivity.
  - unfold Hitters.barrel_flag, Series.fillna0, Series.between. cbv zeta.
    replace (Qle_bool 26 0) with false by reflexivity.
    replace (Qle_bool 19 0) with false by reflexivity.
    replace (Qle_bool 13 0) with false by reflexivity.
    cbn [andb]. rewrite !andb_false_r. reflexivity.
  - repeat split; reflexivity.
Qed.

(* ------------------------------------------------------------------ *)
(** *** A day without games                                           *)
(* ------------------------------------------------------------------ *)

(** C10.  On a schedule response whose list of dates is empty (or has no
    ["dates"] entry), [fetch_today_matchups] raises an index error whatever
    the pitcher leaderboard holds, [fetch_schedule] returns the empty list
    of games, and the softness ranker's [main] reports that there are no
    games. *)
Theorem C10_empty_dates (schedule pitchers : value)
    (parse : string -> option Q) (people : value -> value) :
  get schedule "dates" (VList []) = Ok (VList []) ->
  Hitters.fetch_today_matchups schedule pitchers = Raise IndexError
  /\ SoftMatchups.fetch_schedule schedule = Ok (VList [])
  /\ SoftMatchups.main parse people schedule = Ok SoftMatchups.NoGames.
Proof.
  intros H.
  unfold Hitters.fetch_today_matchups, SoftMatchups.main, SoftMatchups.fetch_schedule.
  rewrite H. repeat split; reflexivity.
Qed.

Lemma C10_empty_dates_witness :
  Hitters.fetch_today_matchups Samples.no_games (VDict []) = Raise IndexError
  /\ SoftMatchups.fetch_schedule Samples.no_games = Ok (VList [])
  /\ SoftMatchups.main (fun _ => None) (fun _ => VDict []) Samples.no_games
     = Ok SoftMatchups.NoGames.
Proof.
  apply (C10_empty_dates Samples.no_games (VDict []) (fun _ => None) (fun _ => VDict [])).
  reflexivity.
Defined.

(* ------------------------------------------------------------------ *)
(** *** Frames: columns read and written                              *)
(* ------------------------------------------------------------------ *)

Section Frames.

Lemma index_of_bound (c : string) (cols : list string) (i : nat) :
  index_of c cols = Some i -> (i < List.length cols)%nat.
Proof.
  revert i. induction cols as [| c' cs IH]; intros i; cbn; [discriminate |].
  destruct (String.eqb c c').
  - intros [= <-]. lia.
  - destruct (index_of c cs) as [j |]; [| discriminate].
    intros [= <-]. specialize (IH j eq_refl). lia.
Qed.

Lemma index_of_In (c : string) (cols : list string) :
  In c cols -> exists i, index_of c cols = Some i.
Proof.
  induction cols as [| c' cs IH]; cbn; [contradiction |].
  intros [-> | Hin].
  - rewrite String.eqb_refl. eauto.
  - destruct (String.eqb c c'); [eauto |].
    destruct (IH Hin) as [j ->]. eauto.
Qed.

Lemma index_of_not_In (c : string) (cols : list string) :
  ~ In c cols -> index_of c cols = None.
Proof.
  induction cols as [| c' cs IH]; cbn; [reflexivity |].
  intros Hn. destruct (String.eqb_spec c c') as [-> | _].
  - exfalso. apply Hn. now left.
  - rewrite IH; [reflexivity |]. intros H. apply Hn. now right.
Qed.

Lemma index_of_app_l (c : string) (cols more : list string) (i : nat) :
  index_of c cols = Some i -> index_of c (cols ++ more) = Some i.
Proof.
  revert i. induction cols as [| c' cs IH]; intros i; cbn; [discriminate |].
  destruct (String.eqb c c'); [trivial |].
  destruct (index_of c cs) as [j |]; [| discriminate].
  intros [= <-]. now rewrite (IH j eq_refl).
Qed.

Lemma index_of_app_new (c : string) (cols more : list string) :
  index_of c cols = None ->
  index_of c (cols ++ c :: more) = Some (List.length cols).
Proof.
  induction cols as [| c' cs IH]; cbn.
  - now rewrite String.eqb_refl.
  - destruct (String.eqb c c'); [discriminate |].
    destruct (index_of c cs); [discriminate |].
    intros _. now rewrite IH.
Qed.

Lemma zip_with_map_r {A B C : Type} (f : A -> B -> C) (g : A -> B) (l : list A) :
  zip_with f l (map g l) = map (fun x => f x (g x)) l.
Proof. induction l as [| x l IH]; cbn; [reflexivity | now rewrite IH]. Qed.

Lemma nth_app_short (r : list value) (more : list value) (i : nat) :
  (i < List.length r)%nat -> nth i (r ++ more) VNone = nth i r VNone.
Proof. intros H. now apply app_nth1. Qed.

Lemma getcol_at (df : DataFrame) (c : string) (i : nat) :
  index_of c (columns df) = Some i ->
  getcol df c = Ok (map (fun r => nth i r VNone) (rows df)).
Proof. intros H. unfold getcol. now rewrite H. Qed.

Lemma setcol_new (df : DataFrame) (c : string) (f : value -> value) (i : nat) :
  index_of c (columns df) = None ->
  setcol df c (map f (map (fun r => nth i r VNone) (rows df)))
  = mkDF (columns df ++ [c]) (map (fun r => r ++ [f (nth i r VNone)]) (rows df)).
Proof.
  intros H. unfold setcol. rewrite H, map_map, zip_with_map_r. reflexivity.
Qed.

(** Two assignments of columns computed from the column [cid], on a frame
    that has that column and not yet the two new ones. *)
Lemma join_two_columns (cid c1 c2 : string) (f1 f2 : value -> value)
    (df : DataFrame) (i : nat) :
  well_formed df ->
  index_of cid (columns df) = Some i ->
  index_of c1 (columns df) = None ->
  index_of c2 (columns df) = None ->
  c2 <> c1 ->
  (ids <- getcol df cid ;;
   let df1 := setcol df c1 (map f1 ids) in
   ids <- getcol df1 cid ;;
   let df2 := setcol df1 c2 (map f2 ids) in
   Ok df2) = Ok (extend2 c1 c2 f1 f2 i df).
Proof.
  intros Hwf Hi H1 H2 Hne.
  rewrite (getcol_at _ _ _ Hi). cbn [bind]. cbv zeta.
  rewrite (setcol_new _ _ _ _ H1).
  assert (Hi' : index_of cid
                  (columns (mkDF (columns df ++ [c1])
                                 (map (fun r => r ++ [f1 (nth i r VNone)]) (rows df))))
                = Some i).
  { cbn [columns]. now apply index_of_app_l. }
  rewrite (getcol_at _ _ _ Hi'). cbn [bind].
  assert (H2' : index_of c2
                  (columns (mkDF (columns df ++ [c1])
                                 (map (fun r => r ++ [f1 (nth i r VNone)]) (rows df))))
                = None).
  { cbn [columns]. apply index_of_not_In. rewrite in_app_iff. intros [Hin | [He | []]].
    - destruct (index_of_In _ _ Hin) as [j Hj]. congruence.
    - congruence. }
  rewrite (setcol_new _ _ _ _ H2'). cbn [columns rows].
  unfold extend2. rewrite <- app_assoc. cbn [app]. f_equal. f_equal.
  rewrite map_map. apply map_ext_in. intros r Hr.
  rewrite <- app_assoc. cbn [app].
  assert (Hlen : (i < List.length r)%nat).
  { unfold well_formed in Hwf. rewrite Forall_forall in Hwf.
    rewrite (Hwf r Hr). now apply index_of_bound with (c := cid). }
  now rewrite nth_app_short.
Qed.

Lemma cell_extend2_old (c1 c2 : string) (f1 f2 : value -> value)
    (df : DataFrame) (i n : nat) (c : string) :
  well_formed df -> In c (columns df) ->
  cell (extend2 c1 c2 f1 f2 i df) n c = cell df n c.
Proof.
  intros Hwf Hin. destruct (index_of_In _ _ Hin) as [j Hj].
  unfold cell, extend2. cbn [columns rows].
  rewrite (index_of_app_l _ _ _ _ Hj), Hj, nth_error_map.
  destruct (nth_error (rows df) n) as [r |] eqn:Hr; [| reflexivity].
  cbn [option_map].
  apply nth_error_app1.
  unfold well_formed in Hwf. rewrite Forall_forall in Hwf.
  rewrite (Hwf r (nth_error_In _ _ Hr)). now apply index_of_bound with (c := c).
Qed.

Lemma cell_extend2_new (cid c1 c2 : string) (f1 f2 : value -> value)
    (df : DataFrame) (i n : nat) (id : value) :
  well_formed df ->
  index_of cid (columns df) = Some i ->
  index_of c1 (columns df) = None ->
  index_of c2 (columns df) = None ->
  c2 <> c1 ->
  cell df n cid = Some id ->
  cell (extend2 c1 c2 f1 f2 i df) n c1 = Some (f1 id)
  /\ cell (extend2 c1 c2 f1 f2 i df) n c2 = Some (f2 id).
Proof.
  intros Hwf Hi H1 H2 Hne Hcell.
  unfold cell in Hcell. rewrite Hi in Hcell.
  destruct (nth_error (rows df) n) as [r |] eqn:Hr; [| discriminate].
  assert (Hlen : List.length r = List.length (columns df)).
  { unfold well_formed in Hwf. rewrite Forall_forall in Hwf.
    apply Hwf. eapply nth_error_In; eauto. }
  assert (Hid : nth i r VNone = id).
  { now apply nth_error_nth. }
  assert (H2' : index_of c2 (columns df ++ [c1; c2]) = Some (S (List.length (columns df)))).
  { change (columns df ++ [c1; c2]) with (columns df ++ [c1] ++ [c2]).
    rewrite app_assoc.
    assert (Hn : index_of c2 (columns df ++ [c1]) = None).
    { apply index_of_not_In. rewrite in_app_iff. intros [Hin | [He | []]].
      - destruct (index_of_In _ _ Hin) as [j Hj]. congruence.
      - congruence. }
    rewrite (index_of_app_new _ _ [] Hn), length_app. cbn. f_equal. lia. }
  unfold cell, extend2. cbn [columns rows].
  rewrite (index_of_app_new _ _ [c2] H1), H2', nth_error_map, Hr.
  cbn [option_map]. rewrite Hid. split.
  - rewrite nth_error_app2 by lia. rewrite Hlen, Nat.sub_diag. reflexivity.
  - rewrite nth_error_app2 by lia. rewrite Hlen.
    replace (S (List.length (columns df)) - List.length (columns df))%nat with 1%nat by lia.
    reflexivity.
Qed.


End Frames.

(* ------------------------------------------------------------------ *)
(** *** The error monad                                               *)
(* ------------------------------------------------------------------ *)

Section Results.

Lemma bind_Ok_inv {A B : Type} (m : result A) (k : A -> result B) (b : B) :
  bind m k = Ok b -> exists a, m = Ok a /\ k a = Ok b.
Proof. destruct m as [a | e]; cbn; [eauto | discriminate]. Qed.

Lemma mapM_Forall2 {A B : Type} (f : A -> result B) (l : list A) (rs : list B) :
  mapM f l = Ok rs <-> Forall2 (fun x r => f x = Ok r) l rs.
Proof.
  revert rs. induction l as [| x l IH]; intros rs; cbn.
  - split.
    + intros [= <-]. constructor.
    + intros H. inversion H. reflexivity.
  - split.
    + intros H. apply bind_Ok_inv in H as [y [Hy H]].
      apply bind_Ok_inv in H as [ys [Hys H]]. injection H as <-.
      constructor; [assumption | now apply IH].
    + intros H. inversion H as [| ? y ? ys Hy Hys]; subst.
      rewrite Hy. cbn [bind]. apply IH in Hys. rewrite Hys. reflexivity.
Qed.

End Results.

Ltac bind_inv H :=
  repeat match type of H with
         | bind _ _ = Ok _ =>
             let a := fresh "a" in
             let Ha := fresh "Ha" in
             apply bind_Ok_inv in H as [a [Ha H]]
         end.

(* ------------------------------------------------------------------ *)
(** *** The enrichment join                                           *)
(* ------------------------------------------------------------------ *)

Section Enrichment.




Lemma pd_DataFrame_well_formed (recs : list record) : well_formed (pd_DataFrame recs).
Proof.
  unfold well_formed. destruct recs as [| r rs]; cbn [pd_DataFrame rows columns].
  - constructor.
  - apply Forall_forall. intros row Hin.
    change (In row (map (fun rc => map (fun c => match assoc c rc with
                                                 | Some v => v
                                                 | None => VNone
                                                 end) (map fst r)) (r :: rs))) in Hin.
    apply in_map_iff in Hin as [rc [<- _]]. now rewrite length_map.
Qed.

Lemma top75_record_keys (s : value) (r : record) :
  Fulldata.top75_record s = Ok r ->
  map fst r = ["Player_ID"; "Batter"; "HRs"; "Games"; "AVG"; "SLG"; "HR%"; "AB"].
Proof.
  unfold Fulldata.top75_record. intros H. bind_inv H.
  injection H as <-. reflexivity.
Qed.


Lemma top50_record_keys (s : value) (r : record) :
  Hitters.top50_record s = Ok r ->
  map fst r = ["Batter"; "Player_ID"; "HRs"; "Games"; "AVG"; "SLG"; "HR%"; "AB"].
Proof.
  unfold Hitters.top50_record. intros H. bind_inv H.
  injection H as <-. reflexivity.
Qed.





(** A leaderboard response without splits gives a frame without columns,
    and the enrichment then fails on the identifier column. *)
Example fetch_top75_no_splits (sc : list sample) :
  Fulldata.fetch_top75_and_enrich (VDict [("stats", VList [VDict [("splits", VList [])]])]) sc
  = Raise KeyError.
Proof. reflexivity. Qed.

Example enrich_top50_no_splits (sc : list sample) :
  (df <- Hitters.fetch_top50 (VDict [("stats", VList [VDict [("splits", VList [])]])]) ;;
   Hitters.enrich_top50 sc df)
  = Raise KeyError.
Proof. reflexivity. Qed.

End Enrichment.





(* ------------------------------------------------------------------ *)
(** *** The two aggregates                                            *)
(* ------------------------------------------------------------------ *)

Section Aggregates.

Lemma group_samples (f : sample -> option Q) (k : Z) (sc : list sample) :
  Series.group k (map batter sc) (map f sc) = map f (samples_of k sc).
Proof.
  induction sc as [| s sc IH]; cbn; [reflexivity |].
  destruct (k =? batter s); cbn; now rewrite IH.
Qed.

Lemma existsb_samples (k : Z) (sc : list sample) :
  existsb (Z.eqb k) (map batter sc)
  = match samples_of k sc with [] => false | _ => true end.
Proof.
  induction sc as [| s sc IH]; cbn; [reflexivity |].
  destruct (k =? batter s); cbn; [reflexivity | exact IH].
Qed.

Lemma present_all (g : list sample) (f : sample -> Q) :
  Series.present (map (fun s => Some (f s)) g) = map f g.
Proof.
  unfold Series.present.
  induction g as [| s g IH]; cbn; [reflexivity | now rewrite IH].
Qed.

Lemma mean_eq (l : numcol) :
  Series.mean l = match Series.present l with
                  | [] => None
                  | x :: xs => Some (Qred (mean_of (x :: xs)))
                  end.
Proof. unfold Series.mean, mean_of. destruct (Series.present l); reflexivity. Qed.

Lemma barrel_map_eq (sc : list sample) (k : Z) :
  Hitters.barrel_map sc k
  = match samples_of k sc with
    | [] => None
    | g => Some (Some (Qred (mean_of (flags_of g))))
    end.
Proof.
  unfold Hitters.barrel_map, Hitters.compute_barrel, Series.groupby_mean.
  rewrite map_map, existsb_samples.
  rewrite (group_samples
             (fun s => Some (inject_Z (Hitters.barrel_flag (launch_speed s) (launch_angle s))))).
  destruct (samples_of k sc) as [| s g]; [reflexivity |].
  rewrite mean_eq, present_all. reflexivity.
Qed.

Lemma ev_map_eq (sc : list sample) (k : Z) :
  Hitters.ev_map sc k
  = match samples_of k sc with
    | [] => None
    | g => Some (match speeds_of g with
                 | [] => None
                 | x :: xs => Some (Qred (mean_of (x :: xs)))
                 end)
    end.
Proof.
  unfold Hitters.ev_map, Series.groupby_mean.
  rewrite existsb_samples, (group_samples launch_speed).
  destruct (samples_of k sc) as [| s g]; [reflexivity |].
  now rewrite mean_eq.
Qed.

Lemma speeds_of_all (g : list sample) :
  Forall (fun s => launch_speed s <> None) g ->
  List.length (speeds_of g) = List.length g.
Proof.
  unfold speeds_of, Series.present.
  induction 1 as [| s g Hs _ IH]; cbn; [reflexivity |].
  destruct (launch_speed s); [cbn; now rewrite IH | contradiction].
Qed.

Lemma speeds_of_length (g : list sample) :
  (List.length (speeds_of g) <= List.length g)%nat.
Proof.
  unfold speeds_of, Series.present.
  induction g as [| s g IH]; cbn; [lia |].
  destruct (launch_speed s); cbn; lia.
Qed.

End Aggregates.

(** C4, where the code contradicts it: player 7 has two samples, one with
    launch speed 100 and one without; the barrel rate is one half, a mean
    over both samples, but the average exit velocity is 100, a mean over
    the one measured sample, not the 50 that a mean over both would be. *)
Lemma C4_missing_speed_not_in_denominator :
  Hitters.barrel_map Samples.statcast 7 = Some (Some (1 # 2)%Q)
  /\ Hitters.ev_map Samples.statcast 7 = Some (Some 100%Q)
  /\ Fulldata.ev_map Samples.statcast 7 = Some (Some 100%Q)
  /\ (claimed_avg_exit_vel Samples.statcast 7 == 50)%Q
  /\ ~ (100 == claimed_avg_exit_vel Samples.statcast 7)%Q.
Proof.
  repeat split; try reflexivity.
  intros H. vm_compute in H. discriminate.
Qed.

(** C4, as the code has it.  For a player without samples both aggregates
    have no entry.  For a player with samples the barrel rate is the mean
    of the barrel flag over all of the player's samples (a sample with a
    missing speed or angle counts as a non-barrel), and the average exit
    velocity is the mean of the launch speeds that were measured: samples
    without a launch speed are left out of its sum and of its count, and it
    is undefined when none of the player's samples has one; the two means
    count the same samples when every sample of the player has a launch
    speed.  Both scripts compute the same two aggregates. *)
Theorem C4_aggregates (sc : list sample) (k : Z) :
  (samples_of k sc = []
   /\ Hitters.barrel_map sc k = None
   /\ Hitters.ev_map sc k = None
   \/ samples_of k sc <> []
      /\ (exists r, Hitters.barrel_map sc k = Some (Some r)
                    /\ (r == mean_of (flags_of (samples_of k sc)))%Q)
      /\ (speeds_of (samples_of k sc) = []
          /\ Hitters.ev_map sc k = Some None
          \/ speeds_of (samples_of k sc) <> []
             /\ exists e, Hitters.ev_map sc k = Some (Some e)
                          /\ (e == mean_of (speeds_of (samples_of k sc)))%Q))
  /\ (List.length (speeds_of (samples_of k sc)) <= List.length (samples_of k sc))%nat
  /\ (Forall (fun s => launch_speed s <> None) (samples_of k sc) ->
      List.length (speeds_of (samples_of k sc)) = List.length (samples_of k sc))
  /\ Fulldata.barrel_map sc k = Hitters.barrel_map sc k
  /\ Fulldata.ev_map sc k = Hitters.ev_map sc k.
Proof.
  split; [| split; [apply speeds_of_length | split; [apply speeds_of_all | split]]].
  - rewrite barrel_map_eq, ev_map_eq.
    destruct (samples_of k sc) as [| s g] eqn:Eg; [left; auto |].
    right. split; [discriminate |]. split.
    + eexists. split; [reflexivity | apply Qred_correct].
    + destruct (speeds_of (s :: g)) as [| x xs] eqn:Es; [left; auto |].
      right. split; [discriminate |].
      eexists. split; [reflexivity | apply Qred_correct].
  - unfold Fulldata.barrel_map, Hitters.barrel_map, Hitters.compute_barrel.
    now rewrite map_map.
  - reflexivity.
Qed.

(* ------------------------------------------------------------------ *)
(** *** Softness and the softest-first order                          *)
(* ------------------------------------------------------------------ *)

Section Softest.

Import SoftMatchups.

Lemma insert_by_perm (r : matchup) (l : list matchup) :
  Permutation (insert_by key_of r l) (r :: l).
Proof.
  induction l as [| x l IH]; cbn; [apply Permutation_refl |].
  destruct (Qle_bool (key_of r) (key_of x)); [apply Permutation_refl |].
  eapply perm_trans; [apply perm_skip, IH | apply perm_swap].
Qed.

Lemma argsort_perm (l : list matchup) : Permutation (argsort key_of l) l.
Proof.
  induction l as [| x l IH]; cbn; [constructor |].
  eapply perm_trans; [apply insert_by_perm | now apply perm_skip].
Qed.

Lemma insert_by_sorted (r : matchup) (l : list matchup) :
  StronglySorted harder_eq l -> StronglySorted harder_eq (insert_by key_of r l).
Proof.
  induction l as [| x l IH]; intros Hs; cbn.
  - repeat constructor.
  - inversion Hs as [| ? ? Hl Hx]; subst.
    destruct (Qle_bool (key_of r) (key_of x)) eqn:E.
    + apply Qle_bool_iff in E. constructor; [assumption |].
      constructor; [exact E |].
      eapply Forall_impl; [| exact Hx].
      intros y Hy. unfold harder_eq in *. eapply Qle_trans; eauto.
    + assert (Hxr : harder_eq x r).
      { unfold harder_eq. apply Qlt_le_weak, Qnot_le_lt.
        intros H. apply Qle_bool_iff in H. congruence. }
      constructor; [now apply IH |].
      eapply Permutation_Forall; [apply Permutation_sym, insert_by_perm |].
      now constructor.
Qed.

Lemma argsort_sorted (l : list matchup) : StronglySorted harder_eq (argsort key_of l).
Proof.
  induction l as [| x l IH]; cbn; [constructor | now apply insert_by_sorted].
Qed.

Lemma sorted_snoc (R : matchup -> matchup -> Prop) (l : list matchup) (x : matchup) :
  StronglySorted R l -> Forall (fun y => R y x) l -> StronglySorted R (l ++ [x]).
Proof.
  induction l as [| a l IH]; cbn; intros Hs Hf.
  - repeat constructor.
  - inversion Hs as [| ? ? Hl Ha]; subst. inversion Hf as [| ? ? Hax Hlx]; subst.
    constructor; [now apply IH |].
    apply Forall_app. split; [assumption | now repeat constructor].
Qed.

Lemma sorted_rev (l : list matchup) :
  StronglySorted harder_eq l -> StronglySorted softer_eq (rev l).
Proof.
  induction l as [| x l IH]; cbn; intros Hs; [constructor |].
  inversion Hs as [| ? ? Hl Hx]; subst.
  apply sorted_snoc; [now apply IH |].
  apply Forall_rev. exact Hx.
Qed.

Lemma filter_split (p : matchup -> bool) (l : list matchup) :
  Permutation (filter (fun r => negb (p r)) l ++ filter p l) l.
Proof.
  induction l as [| x l IH]; cbn; [constructor |].
  destruct (p x); cbn.
  - eapply perm_trans; [apply Permutation_sym, Permutation_middle |].
    now apply perm_skip.
  - now apply perm_skip.
Qed.

Lemma known_part_perm (df : list matchup) :
  Permutation (rev (argsort key_of (rev (filter (fun r => negb (isna r)) df))))
              (filter (fun r => negb (isna r)) df).
Proof.
  eapply perm_trans; [apply Permutation_sym, Permutation_rev |].
  eapply perm_trans; [apply argsort_perm |].
  apply Permutation_sym, Permutation_rev.
Qed.

Lemma sort_values_desc_perm (df : list matchup) :
  Permutation (sort_values_desc df) df.
Proof.
  unfold sort_values_desc.
  eapply perm_trans; [| apply (filter_split isna)].
  apply Permutation_app_tail, known_part_perm.
Qed.

(** The table as pandas orders it: the rows with a softness, softest
    first, then the rows without one. *)
Lemma sort_values_desc_shape (df : list matchup) :
  exists known unknown,
    sort_values_desc df = known ++ unknown
    /\ Forall (fun r => Softness r <> None) known
    /\ Forall (fun r => Softness r = None) unknown
    /\ StronglySorted softer_eq known.
Proof.
  exists (rev (argsort key_of (rev (filter (fun r => negb (isna r)) df)))),
         (filter isna df).
  split; [reflexivity |]. split; [| split].
  - eapply Permutation_Forall; [apply Permutation_sym, known_part_perm |].
    apply Forall_forall. intros r Hr. apply filter_In in Hr as [_ Hr].
    unfold isna in Hr. destruct (Softness r); [discriminate | discriminate].
  - apply Forall_forall. intros r Hr. apply filter_In in Hr as [_ Hr].
    unfold isna in Hr. destruct (Softness r); [discriminate | reflexivity].
  - apply sorted_rev, argsort_sorted.
Qed.

Lemma softness_both (h a : Q) :
  exists m, softness (Some h) (Some a) = Some m
            /\ (m = h \/ m = a) /\ (h <= m)%Q /\ (a <= m)%Q.
Proof.
  unfold softness. cbn.
  destruct (Qle_bool a h) eqn:E.
  - apply Qle_bool_iff in E. exists h. repeat split; auto. apply Qle_refl.
  - exists a. repeat split; auto; [| apply Qle_refl].
    apply Qlt_le_weak, Qnot_le_lt. intros H. apply Qle_bool_iff in H. congruence.
Qed.

Lemma matchup_row_softness (parse : string -> option Q) (people : value -> value)
    (g : value) (r : matchup) :
  matchup_row parse people g = Ok r ->
  Softness r = softness (Home_ERA r) (Away_ERA r).
Proof.
  unfold matchup_row. intros H. bind_inv H. injection H as <-. reflexivity.
Qed.

End Softest.

(** C5.  Every row of the table the softness ranker prints has as its
    softness the larger of the two starters' ERAs when both are known, the
    known one when one is, and none when both are unknown (3.50 against
    4.80 gives 4.80, unknown against 4.80 gives 4.80); the table holds the
    rows of all games, first the rows with a softness in descending order,
    then the rows without one. *)
Theorem C5_softness_and_order
    (parse : string -> option Q) (people : value -> value) (schedule : value)
    (t : list SoftMatchups.matchup) :
  SoftMatchups.main parse people schedule = Ok (SoftMatchups.Table t) ->
  Forall (fun r => SoftMatchups.Softness r
                   = SoftMatchups.softness (SoftMatchups.Home_ERA r)
                                           (SoftMatchups.Away_ERA r)) t
  /\ (exists games gs rows,
        SoftMatchups.fetch_schedule schedule = Ok games
        /\ iter games = Ok gs
        /\ Forall2 (fun g r => SoftMatchups.matchup_row parse people g = Ok r) gs rows
        /\ Permutation t rows)
  /\ (exists known unknown,
        t = known ++ unknown
        /\ Forall (fun r => SoftMatchups.Softness r <> None) known
        /\ Forall (fun r => SoftMatchups.Softness r = None) unknown
        /\ StronglySorted softer_eq known)
  /\ (forall h a, exists m,
        SoftMatchups.softness (Some h) (Some a) = Some m
        /\ (m = h \/ m = a) /\ (h <= m)%Q /\ (a <= m)%Q)
  /\ (forall a, SoftMatchups.softness None (Some a) = Some a)
  /\ (forall h, SoftMatchups.softness (Some h) None = Some h)
  /\ SoftMatchups.softness None None = None
  /\ SoftMatchups.softness (Some 3.5%Q) (Some 4.8%Q) = Some 4.8%Q
  /\ SoftMatchups.softness None (Some 4.8%Q) = Some 4.8%Q.
Proof.
  intros H. unfold SoftMatchups.main in H. bind_inv H.
  rename a into games, a0 into gs, a1 into rows.
  assert (Ht : t = SoftMatchups.sort_values_desc rows).
  { destruct rows; [discriminate | now injection H as <-]. }
  apply mapM_Forall2 in Ha1.
  assert (Hrows : Forall (fun r => SoftMatchups.Softness r
                                   = SoftMatchups.softness (SoftMatchups.Home_ERA r)
                                                           (SoftMatchups.Away_ERA r)) rows).
  { clear - Ha1. induction Ha1; constructor; eauto using matchup_row_softness. }
  subst t. split; [| split; [| split; [| split]]].
  - eapply Permutation_Forall; [apply Permutation_sym, sort_values_desc_perm | exact Hrows].
  - exists games, gs, rows. auto using sort_values_desc_perm.
  - apply sort_values_desc_shape.
  - apply softness_both.
  - repeat split; reflexivity.
Qed.

Lemma C5_softness_and_order_witness :
  exists known unknown,
    Samples.ranked = known ++ unknown
    /\ Forall (fun r => SoftMatchups.Softness r <> None) known
    /\ Forall (fun r => SoftMatchups.Softness r = None) unknown
    /\ StronglySorted softer_eq known.
Proof.
  refine (proj1 (proj2 (proj2 (C5_softness_and_order
                                 Samples.parse_era Samples.people Samples.schedule
                                 Samples.ranked _)))).
  vm_compute. reflexivity.
Defined.

(* ------------------------------------------------------------------ *)
(** *** Missing values                                                *)
(* ------------------------------------------------------------------ *)

Section MissingValues.

Lemma extend2_well_formed (c1 c2 : string) (f1 f2 : value -> value)
    (i : nat) (df : DataFrame) :
  well_formed df -> well_formed (extend2 c1 c2 f1 f2 i df).
Proof.
  unfold well_formed, extend2. cbn [columns rows]. intros H.
  apply Forall_forall. intros r Hr.
  apply in_map_iff in Hr as [r0 [<- Hr0]].
  rewrite Forall_forall in H. rewrite !length_app, (H r0 Hr0). reflexivity.
Qed.

Lemma stat_lookup_value (m : list (value * record)) (field : string) (pid v : value) :
  Hitters.stat_lookup m field pid = Ok v -> v = stat_or_empty m field pid.
Proof.
  unfold Hitters.stat_lookup, stat_or_empty.
  destruct (Hitters.hashable pid); [| discriminate]. now intros [= <-].
Qed.

Lemma mapM_stat_lookup (m : list (value * record)) (field : string)
    (ids vs : list value) :
  mapM (Hitters.stat_lookup m field) ids = Ok vs ->
  vs = map (stat_or_empty m field) ids.
Proof.
  intros H. apply mapM_Forall2 in H.
  induction H as [| pid v ids vs Hv _ IH]; cbn; [reflexivity |].
  now rewrite (stat_lookup_value _ _ _ _ Hv), IH.
Qed.

Lemma attach_side_extend (m : list (value * record)) (side : string)
    (df df' : DataFrame) (i : nat) :
  well_formed df ->
  index_of (side ++ "_Starter_ID")%string (columns df) = Some i ->
  index_of (side ++ "_ERA")%string (columns df) = None ->
  index_of (side ++ "_SO")%string (columns df) = None ->
  (side ++ "_SO")%string <> (side ++ "_ERA")%string ->
  Hitters.attach_side m side df = Ok df' ->
  df' = extend2 (side ++ "_ERA")%string (side ++ "_SO")%string
                (stat_or_empty m "ERA") (stat_or_empty m "SO") i df.
Proof.
  intros Hwf Hi H1 H2 Hne H.
  pose proof (join_two_columns (side ++ "_Starter_ID")%string
                (side ++ "_ERA")%string (side ++ "_SO")%string
                (stat_or_empty m "ERA") (stat_or_empty m "SO") df i
                Hwf Hi H1 H2 Hne) as J.
  unfold Hitters.attach_side in H.
  apply bind_Ok_inv in H as [ids [Hids H]].
  apply bind_Ok_inv in H as [eras [Heras H]].
  apply mapM_stat_lookup in Heras. subst eras. cbv zeta in H.
  apply bind_Ok_inv in H as [ids' [Hids' H]].
  apply bind_Ok_inv in H as [sos [Hsos H]].
  apply mapM_stat_lookup in Hsos. subst sos.
  rewrite Hids in J. cbn [bind] in J. cbv zeta in J.
  rewrite Hids' in J. cbn [bind] in J.
  congruence.
Qed.

Lemma matchup_record_keys (g : value) (r : record) :
  Hitters.matchup_record g = Ok r ->
  map fst r = ["Home_Team"; "Away_Team"; "Home_Starter"; "Home_Starter_ID";
               "Away_Starter"; "Away_Starter_ID"].
Proof.
  unfold Hitters.matchup_record. intros H. bind_inv H. injection H as <-. reflexivity.
Qed.


(** What the matchup builder returns, cell by cell. *)
Lemma fetch_today_matchups_cells (schedule pitchers : value) (df : DataFrame) :
  Hitters.fetch_today_matchups schedule pitchers = Ok df ->
  exists stats_map,
    (rows df = []
     \/ exists ps, Hitters.fetch_top50_pitchers pitchers = Ok ps
                   /\ Hitters.index_to_dict ps "Player_ID" = Ok stats_map)
    /\ forall n pid,
        (cell df n "Home_Starter_ID" = Some pid ->
         cell df n "Home_ERA" = Some (stat_or_empty stats_map "ERA" pid)
         /\ cell df n "Home_SO" = Some (stat_or_empty stats_map "SO" pid))
        /\ (cell df n "Away_Starter_ID" = Some pid ->
            cell df n "Away_ERA" = Some (stat_or_empty stats_map "ERA" pid)
            /\ cell df n "Away_SO" = Some (stat_or_empty stats_map "SO" pid)).
Proof.
  unfold Hitters.fetch_today_matchups. intros H.
  apply bind_Ok_inv in H as [dates [_ H]].
  apply bind_Ok_inv in H as [first [_ H]].
  apply bind_Ok_inv in H as [games [_ H]].
  apply bind_Ok_inv in H as [items [_ H]].
  apply bind_Ok_inv in H as [matchups [Hm H]].
  cbv zeta in H.
  destruct matchups as [| r rs].
  - cbn in H. injection H as <-. exists []. split; [now left |].
    intros n pid. unfold cell. cbn. split; discriminate.
  - assert (Hk : map fst r = ["Home_Team"; "Away_Team"; "Home_Starter"; "Home_Starter_ID";
                              "Away_Starter"; "Away_Starter_ID"]).
    { destruct items as [| g gs]; [discriminate |].
      cbn [mapM] in Hm. bind_inv Hm. injection Hm as -> _.
      eapply matchup_record_keys; eauto. }
    set (df0 := pd_DataFrame (r :: rs)) in *.
    assert (Hc0 : columns df0 = ["Home_Team"; "Away_Team"; "Home_Starter";
                                 "Home_Starter_ID"; "Away_Starter"; "Away_Starter_ID"]).
    { unfold df0. cbn [pd_DataFrame columns]. exact Hk. }
    assert (Hwf0 : well_formed df0) by apply pd_DataFrame_well_formed.
    assert (He : empty df0 = false).
    { unfold empty. rewrite Hc0. unfold df0. reflexivity. }
    rewrite He in H. cbn [negb] in H.
    apply bind_Ok_inv in H as [ps [Hps H]].
    apply bind_Ok_inv in H as [stats_map [Hsm H]].
    apply bind_Ok_inv in H as [df1 [H1 H]].
    apply bind_Ok_inv in H as [df2 [H2 H]].
    injection H as <-.
    apply (attach_side_extend _ "Home" _ _ 3) in H1;
      [| assumption | now rewrite Hc0 | now rewrite Hc0 | now rewrite Hc0 | discriminate].
    assert (Hwf1 : well_formed df1) by (subst df1; now apply extend2_well_formed).
    assert (Hc1 : columns df1 = ["Home_Team"; "Away_Team"; "Home_Starter";
                                 "Home_Starter_ID"; "Away_Starter"; "Away_Starter_ID";
                                 "Home_ERA"; "Home_SO"]).
    { subst df1. unfold extend2. cbn [columns]. now rewrite Hc0. }
    apply (attach_side_extend _ "Away" _ _ 5) in H2;
      [| assumption | now rewrite Hc1 | now rewrite Hc1 | now rewrite Hc1 | discriminate].
    exists stats_map. split; [right; eauto |].
    intros n pid.
    assert (Hold2 : forall c, In c (columns df1) -> cell df2 n c = cell df1 n c).
    { intros c Hin. subst df2. now apply cell_extend2_old. }
    assert (Hold1 : forall c, In c (columns df0) -> cell df1 n c = cell df0 n c).
    { intros c Hin. rewrite H1. now apply cell_extend2_old. }
    split; intros Hid.
    + rewrite Hold2, Hold1 in Hid by (rewrite ?Hc1, ?Hc0; cbn; tauto).
      rewrite !Hold2 by (rewrite Hc1; cbn; tauto).
      rewrite H1.
      apply (cell_extend2_new ("Home" ++ "_Starter_ID")%string); auto;
        try (now rewrite Hc0); discriminate.
    + rewrite Hold2 in Hid by (rewrite Hc1; cbn; tauto).
      rewrite H2.
      apply (cell_extend2_new ("Away" ++ "_Starter_ID")%string); auto;
        try (now rewrite Hc1); discriminate.
Qed.

End MissingValues.

Section HomeRunEvent.




End HomeRunEvent.



(* ------------------------------------------------------------------ *)
(** *** The report writer                                             *)
(* ------------------------------------------------------------------ *)

Section Workbook.

Lemma sheet_to_excel_same (wb : workbook) (name : string) (df : DataFrame) :
  sheet name (to_excel wb name df) = Some df.
Proof.
  induction wb as [| [n d] wb IH]; cbn.
  - now rewrite String.eqb_refl.
  - destruct (String.eqb name n) eqn:E; cbn.
    + now rewrite String.eqb_refl.
    + now rewrite E.
Qed.

Lemma sheet_to_excel_other (wb : workbook) (name n : string) (df : DataFrame) :
  n <> name -> sheet n (to_excel wb name df) = sheet n wb.
Proof.
  intros Hne. induction wb as [| [n' d] wb IH]; cbn.
  - destruct (String.eqb_spec n name); [contradiction | reflexivity].
  - destruct (String.eqb_spec name n') as [<- | Hn]; cbn.
    + destruct (String.eqb_spec n name); [contradiction | reflexivity].
    + destruct (String.eqb n n'); [reflexivity | exact IH].
Qed.

Lemma sheet_names_to_excel (wb : workbook) (name : string) (df : DataFrame) :
  (In name (sheet_names wb) /\ sheet_names (to_excel wb name df) = sheet_names wb)
  \/ (~ In name (sheet_names wb)
      /\ sheet_names (to_excel wb name df) = sheet_names wb ++ [name]).
Proof.
  unfold sheet_names. induction wb as [| [n d] wb IH]; cbn.
  - right. split; [tauto | reflexivity].
  - destruct (String.eqb_spec name n) as [<- | Hn]; cbn.
    + left. split; [now left | reflexivity].
    + destruct IH as [[Hin ->] | [Hout ->]].
      * left. split; [now right | reflexivity].
      * right. split; [| reflexivity]. intros [E | Hin]; [now apply Hn | now apply Hout].
Qed.

Lemma append_neq (s a b : string) : a <> b -> (s ++ a)%string <> (s ++ b)%string.
Proof.
  intros Hne. induction s as [| c s IH]; cbn; [assumption |].
  intros [= E]. now apply IH.
Qed.



End Workbook.



(* ------------------------------------------------------------------ *)
(** *** The day-range event fetch                                     *)
(* ------------------------------------------------------------------ *)

Section DayRange.

Import Fulldata.










End DayRange.



(* ================================================================== *)
(** ** Further properties of the scripts                              *)
(* ================================================================== *)

(* ------------------------------------------------------------------ *)
(** *** Exceptions a computation cannot end in                        *)
(* ------------------------------------------------------------------ *)

Lemma never_Ok {A : Type} (e : exn) (a : A) : never e (Ok a).
Proof. discriminate. Qed.

Lemma never_bind {A B : Type} (e : exn) (m : result A) (k : A -> result B) :
  never e m -> (forall a, m = Ok a -> never e (k a)) -> never e (bind m k).
Proof.
  unfold never. destruct m as [a | e']; cbn; intros Hm Hk.
  - now apply Hk.
  - intros [= E]. apply Hm. now rewrite E.
Qed.

Lemma never_mapM {A B : Type} (e : exn) (f : A -> result B) (l : list A) :
  (forall x, never e (f x)) -> never e (mapM f l).
Proof.
  intros Hf. induction l as [| x l IH]; cbn [mapM].
  - discriminate.
  - apply never_bind; [apply Hf | intros y _].
    unfold never in *. destruct (mapM f l); cbn; [discriminate | exact IH].
Qed.

Section NeverBuiltins.

Lemma never_get (e : exn) (d : value) (k : string) (dflt : value) :
  e <> AttributeError -> never e (get d k dflt).
Proof. unfold never. destruct d; cbn; congruence. Qed.

Lemma never_getitem (e : exn) (d : value) (k : string) :
  e <> KeyError -> e <> TypeError -> never e (getitem d k).
Proof.
  unfold never. destruct d; cbn; try congruence.
  destruct (assoc k d); congruence.
Qed.

Lemma never_iter (e : exn) (v : value) : e <> TypeError -> never e (iter v).
Proof. unfold never. destruct v; cbn; congruence. Qed.

(** Indexing what is truthy does not run off the end. *)
Lemma getidx_truthy (v : value) :
  truthy v = true -> never IndexError (getidx v 0).
Proof.
  unfold never. destruct v as [| b | z | q | s | l | d]; cbn; try discriminate.
  - destruct s; cbn; discriminate.
  - destruct l; cbn; discriminate.
Qed.

End NeverBuiltins.

Section NeverRanker.

Import SoftMatchups.

Lemma never_getidx (e : exn) (v : value) (i : nat) :
  e <> IndexError -> e <> KeyError -> e <> TypeError -> never e (getidx v i).
Proof.
  unfold never. destruct v as [| b | z | q | s | l | d]; cbn; try congruence.
  - destruct (String.get i s); congruence.
  - destruct (nth_error l i); congruence.
Qed.

Lemma float_raises (parse : string -> option Q) (v : value) (e : exn) :
  float_ parse v = Raise e -> e = ValueError \/ e = TypeError.
Proof.
  destruct v; cbn; try (intros [= <-]; auto); try discriminate.
  destruct (parse s); [discriminate | intros [= <-]; auto].
Qed.

Lemma never_fetch_schedule_index (schedule : value) :
  never IndexError (fetch_schedule schedule).
Proof.
  unfold fetch_schedule.
  apply never_bind; [apply never_get; discriminate | intros dates _].
  destruct (truthy dates) eqn:T; [| apply never_Ok].
  apply never_bind; [now apply getidx_truthy | intros first _].
  apply never_get; discriminate.
Qed.

Lemma never_fetch_schedule_value (schedule : value) :
  never ValueError (fetch_schedule schedule).
Proof.
  unfold fetch_schedule.
  apply never_bind; [apply never_get; discriminate | intros dates _].
  destruct (truthy dates); [| apply never_Ok].
  apply never_bind; [apply never_getidx; discriminate | intros first _].
  apply never_get; discriminate.
Qed.

Lemma never_fetch_pitcher_era (parse : string -> option Q) (people : value -> value)
    (pid : value) :
  never IndexError (fetch_pitcher_era parse people pid)
  /\ never ValueError (fetch_pitcher_era parse people pid).
Proof.
  assert (Hbody :
    forall e, (e = IndexError \/ e = ValueError) ->
      never e
        (ppl <- get (people pid) "people" (VList []) ;;
         if negb (truthy ppl) then Ok None
         else
           first <- getidx ppl 0 ;;
           stats <- get first "stats" (VList []) ;;
           if negb (truthy stats) then Ok None
           else
             first <- getidx stats 0 ;;
             splits <- get first "splits" (VList []) ;;
             if negb (truthy splits) then Ok None
             else
               first <- getidx splits 0 ;;
               stat <- get first "stat" (VDict []) ;;
               era <- get stat "era" VNone ;;
               match float_ parse era with
               | Ok x => Ok (Some x)
               | Raise TypeError => Ok None
               | Raise ValueError => Ok None
               | Raise e => Raise e
               end)).
  { intros e He.
    assert (Hidx : forall v, truthy v = true -> never e (getidx v 0)).
    { intros v Hv. destruct He as [-> | ->];
        [now apply getidx_truthy | apply never_getidx; discriminate]. }
    assert (Hget : forall d k dflt, never e (get d k dflt)).
    { intros. apply never_get. destruct He as [-> | ->]; discriminate. }
    apply never_bind; [apply Hget | intros ppl _].
    destruct (truthy ppl) eqn:T1; cbn [negb]; [| apply never_Ok].
    apply never_bind; [now apply Hidx | intros p0 _].
    apply never_bind; [apply Hget | intros stats _].
    destruct (truthy stats) eqn:T2; cbn [negb]; [| apply never_Ok].
    apply never_bind; [now apply Hidx | intros s0 _].
    apply never_bind; [apply Hget | intros splits _].
    destruct (truthy splits) eqn:T3; cbn [negb]; [| apply never_Ok].
    apply never_bind; [now apply Hidx | intros sp0 _].
    apply never_bind; [apply Hget | intros stat _].
    apply never_bind; [apply Hget | intros era _].
    unfold never. destruct (float_ parse era) as [x | e'] eqn:E; [discriminate |].
    destruct (float_raises _ _ _ E) as [-> | ->]; discriminate. }
  unfold fetch_pitcher_era.
  split; destruct pid; try apply never_Ok; apply Hbody; auto.
Qed.

Lemma never_matchup_row (parse : string -> option Q) (people : value -> value)
    (g : value) (e : exn) :
  e = IndexError \/ e = ValueError -> never e (matchup_row parse people g).
Proof.
  intros He.
  assert (Hget : forall d k dflt, never e (get d k dflt)).
  { intros. apply never_get. destruct He as [-> | ->]; discriminate. }
  assert (Hitem : forall d k, never e (getitem d k)).
  { intros. apply never_getitem; destruct He as [-> | ->]; discriminate. }
  assert (Hera : forall pid, never e (fetch_pitcher_era parse people pid)).
  { intros pid. destruct (never_fetch_pitcher_era parse people pid) as [H1 H2].
    destruct He as [-> | ->]; assumption. }
  unfold matchup_row.
  repeat (apply never_bind; [first [apply Hitem | apply Hget | apply Hera] | intros ? _]).
  apply never_Ok.
Qed.

Lemma never_soft_main (parse : string -> option Q) (people : value -> value)
    (schedule : value) (e : exn) :
  e = IndexError \/ e = ValueError -> never e (main parse people schedule).
Proof.
  intros He. unfold main.
  apply never_bind.
  { destruct He as [-> | ->];
      [apply never_fetch_schedule_index | apply never_fetch_schedule_value]. }
  intros games _.
  apply never_bind.
  { apply never_iter. destruct He as [-> | ->]; discriminate. }
  intros gs _.
  apply never_bind.
  { apply never_mapM. intros g. now apply never_matchup_row. }
  intros rows _. destruct rows; apply never_Ok.
Qed.

End NeverRanker.

(** X1.  Whatever the schedule and per-pitcher responses hold, the softness
    ranker does not end in an index error or in a value error: every
    [x[0]] of [fetch_schedule] and [fetch_pitcher_era] is reached only for
    a non-empty [x], and an ERA that does not convert to a float is caught
    and read as unknown. *)
Theorem soft_matchups_guarded
    (parse : string -> option Q) (people : value -> value) (schedule pid : value) :
  never IndexError (SoftMatchups.fetch_schedule schedule)
  /\ never IndexError (SoftMatchups.fetch_pitcher_era parse people pid)
  /\ never ValueError (SoftMatchups.fetch_pitcher_era parse people pid)
  /\ never IndexError (SoftMatchups.main parse people schedule)
  /\ never ValueError (SoftMatchups.main parse people schedule).
Proof.
  split; [apply never_fetch_schedule_index |].
  split; [apply never_fetch_pitcher_era |].
  split; [apply never_fetch_pitcher_era |].
  split; apply never_soft_main; auto.
Qed.

(* ------------------------------------------------------------------ *)
(** *** The softness ranker                                           *)
(* ------------------------------------------------------------------ *)

(** X2.  For a pitcher identifier other than [None] whose response has a
    first person with a first stats group with a first split, the ERA is
    what the conversion to float makes of that split's ["era"] string, and
    unknown when the string does not spell a number; later people, groups
    and splits are not read. *)
Theorem fetch_pitcher_era_first_split
    (parse : string -> option Q) (people : value -> value) (pid : value)
    (body person group split stat : record) (ps gs ss : list value) (era : string) :
  pid <> VNone ->
  people pid = VDict body ->
  assoc "people" body = Some (VList (VDict person :: ps)) ->
  assoc "stats" person = Some (VList (VDict group :: gs)) ->
  assoc "splits" group = Some (VList (VDict split :: ss)) ->
  assoc "stat" split = Some (VDict stat) ->
  assoc "era" stat = Some (VStr era) ->
  SoftMatchups.fetch_pitcher_era parse people pid = Ok (parse era).
Proof.
  intros Hpid Hbody Hp Hg Hs Hst He.
  unfold SoftMatchups.fetch_pitcher_era.
  rewrite Hbody, get_dict, Hp. cbn [bind truthy negb getidx nth_error].
  rewrite get_dict, Hg. cbn [bind truthy negb getidx nth_error].
  rewrite get_dict, Hs. cbn [bind truthy negb getidx nth_error].
  rewrite get_dict, Hst. cbn [bind]. rewrite get_dict, He. cbn [bind SoftMatchups.float_].
  destruct pid; try contradiction; destruct (parse era); reflexivity.
Qed.

Lemma fetch_pitcher_era_first_split_witness :
  SoftMatchups.fetch_pitcher_era Samples.parse_era Samples.people (VInt 2)
  = Ok (Samples.parse_era "4.80").
Proof.
  refine (fetch_pitcher_era_first_split
            Samples.parse_era Samples.people (VInt 2) _ _ _ _ _ [] [] [] "4.80"
            _ _ _ _ _ _ _);
    first [discriminate | reflexivity].
Defined.

Section Ranker.

Import SoftMatchups.

Lemma soft_main_inv (parse : string -> option Q) (people : value -> value)
    (schedule : value) (out : output) :
  main parse people schedule = Ok out ->
  exists games gs rows,
    fetch_schedule schedule = Ok games
    /\ iter games = Ok gs
    /\ Forall2 (fun g r => matchup_row parse people g = Ok r) gs rows
    /\ out = match rows with
             | [] => NoGames
             | _ => Table (sort_values_desc rows)
             end.
Proof.
  unfold main. intros H.
  apply bind_Ok_inv in H as [games [Hg H]].
  apply bind_Ok_inv in H as [gs [Hi H]].
  apply bind_Ok_inv in H as [rows [Hr H]].
  exists games, gs, rows. apply mapM_Forall2 in Hr.
  repeat split; auto. destruct rows; now injection H as <-.
Qed.

Lemma sort_values_desc_nil (df : list matchup) :
  sort_values_desc df = [] -> df = [].
Proof.
  intros H. pose proof (sort_values_desc_perm df) as P. rewrite H in P.
  now apply Permutation_nil.
Qed.

Lemma head_is_softest (df : list matchup) (r : matchup) (t : list matchup) :
  sort_values_desc df = r :: t ->
  forall r' s', In r' t -> Softness r' = Some s' ->
  exists s, Softness r = Some s /\ (s' <= s)%Q.
Proof.
  intros H r' s' Hin Hs'.
  destruct (sort_values_desc_shape df) as [known [unknown [E [Hk [Hu Hsorted]]]]].
  rewrite H in E. destruct known as [| k known].
  - cbn in E. subst unknown. rewrite Forall_forall in Hu.
    rewrite (Hu r' (or_intror Hin)) in Hs'. discriminate.
  - cbn in E. injection E as <- ->.
    inversion Hk as [| ? ? Hr _]; subst.
    inversion Hsorted as [| ? ? _ Hall]; subst.
    destruct (Softness r) as [s |] eqn:Es; [| contradiction].
    exists s. split; [reflexivity |].
    apply in_app_or in Hin as [Hin | Hin].
    + rewrite Forall_forall in Hall. specialize (Hall r' Hin).
      unfold softer_eq, key_of in Hall. now rewrite Es, Hs' in Hall.
    + rewrite Forall_forall in Hu. rewrite (Hu r' Hin) in Hs'. discriminate.
Qed.

End Ranker.

(** X3.  The ranker reports that there are no games exactly when the
    schedule it read has no game; otherwise it prints one row per game. *)
Theorem soft_main_row_per_game
    (parse : string -> option Q) (people : value -> value) (schedule : value)
    (out : SoftMatchups.output) :
  SoftMatchups.main parse people schedule = Ok out ->
  exists games gs,
    SoftMatchups.fetch_schedule schedule = Ok games
    /\ iter games = Ok gs
    /\ match out with
       | SoftMatchups.NoGames => gs = []
       | SoftMatchups.Table df => gs <> [] /\ List.length df = List.length gs
       end.
Proof.
  intros H. apply soft_main_inv in H as [games [gs [rows [Hg [Hi [Hr ->]]]]]].
  exists games, gs. split; [assumption |]. split; [assumption |].
  destruct rows as [| r rows].
  - now inversion Hr.
  - split.
    + inversion Hr. discriminate.
    + rewrite (Permutation_length (sort_values_desc_perm (r :: rows))).
      symmetry. eapply Forall2_length; eauto.
Qed.

Lemma soft_main_row_per_game_witness :
  exists games gs,
    SoftMatchups.fetch_schedule Samples.schedule = Ok games
    /\ iter games = Ok gs
    /\ gs <> [] /\ List.length Samples.ranked = List.length gs.
Proof.
  refine (soft_main_row_per_game Samples.parse_era Samples.people Samples.schedule
            (SoftMatchups.Table Samples.ranked) _).
  vm_compute. reflexivity.
Defined.

(** X4.  The first row of the printed table is the softest: its softness
    is defined and at least the softness of every other row that has
    one, whenever some row has one. *)
Theorem soft_main_first_is_softest
    (parse : string -> option Q) (people : value -> value) (schedule : value)
    (r r' : SoftMatchups.matchup) (t : list SoftMatchups.matchup) (s' : Q) :
  SoftMatchups.main parse people schedule = Ok (SoftMatchups.Table (r :: t)) ->
  In r' t ->
  SoftMatchups.Softness r' = Some s' ->
  exists s, SoftMatchups.Softness r = Some s /\ (s' <= s)%Q.
Proof.
  intros H Hin Hs'.
  apply soft_main_inv in H as [games [gs [rows [_ [_ [_ E]]]]]].
  destruct rows as [| r0 rows]; [discriminate |]. injection E as E.
  eapply head_is_softest; eauto.
Qed.

Lemma soft_main_first_is_softest_witness :
  exists s, SoftMatchups.Softness
              (SoftMatchups.mkMatchup (VStr "Royals") (VStr "Twins") (VStr "P3")
                                      (Some 5.25%Q) (VStr "") None (Some 5.25%Q))
            = Some s /\ (4.8 <= s)%Q.
Proof.
  refine (soft_main_first_is_softest
            Samples.parse_era Samples.people Samples.schedule _
            (SoftMatchups.mkMatchup (VStr "Mets") (VStr "Cubs") (VStr "P2") (Some 4.8%Q)
                                    (VStr "P1") (Some 3.5%Q) (Some 4.8%Q))
            _ 4.8%Q _ _ _).
  - vm_compute. reflexivity.
  - left. reflexivity.
  - reflexivity.
Defined.

(** X5.  For a game neither of whose sides names a probable pitcher the
    ranker's row has empty starter names and no ERA and no softness, and
    it is the same whatever the per-pitcher lookup would answer: no
    pitcher is looked up. *)
Theorem matchup_row_unannounced
    (parse : string -> option Q) (people : value -> value)
    (g teams home away home_team away_team : record) (home_name away_name : value) :
  assoc "teams" g = Some (VDict teams) ->
  assoc "home" teams = Some (VDict home) ->
  assoc "away" teams = Some (VDict away) ->
  assoc "team" home = Some (VDict home_team) ->
  assoc "team" away = Some (VDict away_team) ->
  assoc "name" home_team = Some home_name ->
  assoc "name" away_team = Some away_name ->
  assoc "probablePitcher" home = None ->
  assoc "probablePitcher" away = None ->
  SoftMatchups.matchup_row parse people (VDict g)
  = Ok (SoftMatchups.mkMatchup away_name home_name (VStr "") None (VStr "") None None).
Proof.
  intros Ht Hh Ha Hht Hat Hhn Han Hhp Hap. unfold SoftMatchups.matchup_row.
  rewrite (getitem_dict _ _ _ Ht). cbn [bind].
  rewrite (getitem_dict _ _ _ Hh). cbn [bind].
  rewrite (getitem_dict _ _ _ Hht). cbn [bind].
  rewrite (getitem_dict _ _ _ Hhn). cbn [bind].
  rewrite (getitem_dict _ _ _ Ha). cbn [bind].
  rewrite (getitem_dict _ _ _ Hat). cbn [bind].
  rewrite (getitem_dict _ _ _ Han). cbn [bind].
  rewrite !get_dict, Hhp, Hap. reflexivity.
Qed.

Lemma matchup_row_unannounced_witness :
  SoftMatchups.matchup_row Samples.parse_era Samples.people
                           (Samples.game 102 "Reds" None "Rays" None)
  = Ok (SoftMatchups.mkMatchup (VStr "Rays") (VStr "Reds") (VStr "") None
                               (VStr "") None None).
Proof.
  refine (matchup_row_unannounced Samples.parse_era Samples.people
            _ _ _ _ _ _ (VStr "Reds") (VStr "Rays") _ _ _ _ _ _ _ _ _);
    reflexivity.
Defined.

(* ------------------------------------------------------------------ *)
(** *** Barrels and the two aggregates                                *)
(* ------------------------------------------------------------------ *)

Lemma barrel_missing (x : option Q) :
  Hitters.barrel_flag None x = 0 /\ Hitters.barrel_flag x None = 0.
Proof.
  split.
  - unfold Hitters.barrel_flag, Series.fillna0. cbv zeta.
    replace (Qle_bool 98 0) with false by reflexivity.
    replace (Qle_bool 105 0) with false by reflexivity.
    replace (Qle_bool 109 0) with false by reflexivity.
    reflexivity.
  - unfold Hitters.barrel_flag, Series.fillna0, Series.between. cbv zeta.
    replace (Qle_bool 26 0) with false by reflexivity.
    replace (Qle_bool 19 0) with false by reflexivity.
    replace (Qle_bool 13 0) with false by reflexivity.
    cbn [andb]. rewrite !andb_false_r. reflexivity.
Qed.

(** X6.  A barrel stays a barrel at any higher launch speed with the same
    launch angle. *)
Theorem barrel_speed_monotone (s s' : Q) (ag : option Q) :
  (s <= s')%Q ->
  Hitters.barrel_flag (Some s) ag = 1 ->
  Hitters.barrel_flag (Some s') ag = 1.
Proof.
  intros Hle H. apply barrel_flag_iff in H. apply barrel_flag_iff.
  unfold in_band in *. cbn [Series.fillna0] in *.
  destruct H as [[H1 H2] | [[H1 H2] | [H1 H2]]].
  - left. split; [eapply Qle_trans; eauto | assumption].
  - right. left. split; [eapply Qle_trans; eauto | assumption].
  - right. right. split; [eapply Qle_trans; eauto | assumption].
Qed.

Lemma barrel_speed_monotone_witness :
  Hitters.barrel_flag (Some 110%Q) (Some 20%Q) = 1.
Proof.
  refine (barrel_speed_monotone 105 110 (Some 20%Q) _ _).
  - discriminate.
  - reflexivity.
Defined.

(** X7.  A barrel has a measured launch speed of at least 98 and a
    measured launch angle between 13 and 30; and every sample with a
    launch speed of at least 109 and a launch angle between 13 and 30 is a
    barrel. *)
Theorem barrel_envelope (sp ag : option Q) :
  (Hitters.barrel_flag sp ag = 1 ->
   exists s a, sp = Some s /\ ag = Some a /\ (98 <= s)%Q /\ (13 <= a)%Q /\ (a <= 30)%Q)
  /\ (forall s a, (109 <= s)%Q -> (13 <= a)%Q -> (a <= 30)%Q ->
      Hitters.barrel_flag (Some s) (Some a) = 1).
Proof.
  split.
  - intros H.
    destruct sp as [s |].
    2:{ pose proof (proj1 (barrel_missing ag)). congruence. }
    destruct ag as [a |].
    2:{ pose proof (proj2 (barrel_missing (Some s))). congruence. }
    exists s, a. apply barrel_flag_iff in H. unfold in_band in H. cbn [Series.fillna0] in H.
    split; [reflexivity |]. split; [reflexivity |].
    destruct H as [[H1 [H2 H3]] | [[H1 [H2 H3]] | [H1 [H2 H3]]]].
    + repeat split; [assumption | | assumption].
      eapply Qle_trans; [| exact H2]. discriminate.
    + repeat split.
      * eapply Qle_trans; [| exact H1]. discriminate.
      * eapply Qle_trans; [| exact H2]. discriminate.
      * eapply Qle_trans; [exact H3 |]. discriminate.
    + repeat split.
      * eapply Qle_trans; [| exact H1]. discriminate.
      * assumption.
      * eapply Qle_trans; [exact H3 |]. discriminate.
  - intros s a Hs Ha1 Ha2. apply barrel_flag_iff. unfold in_band. cbn [Series.fillna0].
    destruct (Qlt_le_dec a 19) as [Hlt | Hge].
    + right. right. repeat split; auto. now apply Qlt_le_weak.
    + destruct (Qlt_le_dec a 26) as [Hlt | Hge'].
      * right. left. repeat split; auto.
        -- eapply Qle_trans; [| exact Hs]. discriminate.
        -- now apply Qlt_le_weak.
      * left. repeat split; auto. eapply Qle_trans; [| exact Hs]. discriminate.
Qed.

Lemma barrel_envelope_witness :
  exists s a, Some 100%Q = Some s /\ Some 28%Q = Some a
              /\ (98 <= s)%Q /\ (13 <= a)%Q /\ (a <= 30)%Q.
Proof.
  refine (proj1 (barrel_envelope (Some 100%Q) (Some 28%Q)) _). reflexivity.
Defined.

Section Means.

Lemma Qsum_bounds (lo hi : Q) (xs : list Q) :
  Forall (fun x => lo <= x /\ x <= hi)%Q xs ->
  (inject_Z (Z.of_nat (List.length xs)) * lo <= Series.Qsum xs
   /\ Series.Qsum xs <= inject_Z (Z.of_nat (List.length xs)) * hi)%Q.
Proof.
  induction 1 as [| x xs [Hlo Hhi] _ [IHlo IHhi]].
  - cbn [List.length Series.Qsum fold_right Z.of_nat].
    change (inject_Z 0) with 0%Q. rewrite !Qmult_0_l. split; apply Qle_refl.
  - cbn [List.length Series.Qsum fold_right].
    rewrite Nat2Z.inj_succ, <- Z.add_1_r, inject_Z_plus.
    change (fold_right Qplus 0%Q xs) with (Series.Qsum xs).
    split.
    + setoid_replace ((inject_Z (Z.of_nat (List.length xs)) + inject_Z 1) * lo)%Q
        with (lo + inject_Z (Z.of_nat (List.length xs)) * lo)%Q by ring.
      now apply Qplus_le_compat.
    + setoid_replace ((inject_Z (Z.of_nat (List.length xs)) + inject_Z 1) * hi)%Q
        with (hi + inject_Z (Z.of_nat (List.length xs)) * hi)%Q by ring.
      now apply Qplus_le_compat.
Qed.

Lemma mean_of_bounds (lo hi : Q) (xs : list Q) :
  xs <> [] ->
  Forall (fun x => lo <= x /\ x <= hi)%Q xs ->
  (lo <= mean_of xs /\ mean_of xs <= hi)%Q.
Proof.
  intros Hne HF. destruct (Qsum_bounds lo hi xs HF) as [Hlo Hhi].
  assert (Hn : (0 < inject_Z (Z.of_nat (List.length xs)))%Q).
  { destruct xs; [contradiction |]. unfold Qlt, inject_Z. cbn [Qnum Qden List.length]. lia. }
  unfold mean_of. split.
  - apply Qle_shift_div_l; [assumption |]. now rewrite Qmult_comm.
  - apply Qle_shift_div_r; [assumption |]. now rewrite Qmult_comm.
Qed.



Lemma flag_unit (s : sample) :
  (0 <= inject_Z (Hitters.barrel_flag (launch_speed s) (launch_angle s))
   /\ inject_Z (Hitters.barrel_flag (launch_speed s) (launch_angle s)) <= 1)%Q.
Proof.
  unfold Hitters.barrel_flag. cbv zeta.
  match goal with |- context [Z.b2z ?b] => destruct b end; cbn; split; discriminate.
Qed.

Lemma fulldata_maps (sc : list sample) (k : Z) :
  Fulldata.barrel_map sc k = Hitters.barrel_map sc k
  /\ Fulldata.ev_map sc k = Hitters.ev_map sc k.
Proof.
  split; [| reflexivity].
  unfold Fulldata.barrel_map, Hitters.barrel_map, Hitters.compute_barrel.
  now rewrite map_map.
Qed.

End Means.

(** X8.  A barrel rate, where the join has one, lies between 0 and 1. *)
Theorem barrel_rate_unit_interval (sc : list sample) (k : Z) (r : Q) :
  Hitters.barrel_map sc k = Some (Some r) \/ Fulldata.barrel_map sc k = Some (Some r) ->
  (0 <= r /\ r <= 1)%Q.
Proof.
  intros H.
  assert (H' : Hitters.barrel_map sc k = Some (Some r)).
  { destruct H as [H | H]; [exact H |]. now rewrite (proj1 (fulldata_maps sc k)) in H. }
  rewrite barrel_map_eq in H'.
  destruct (samples_of k sc) as [| s g] eqn:Eg; [discriminate |].
  assert (Hr : Qred (mean_of (flags_of (s :: g))) = r) by congruence.
  clear H H'. subst r.
  assert (B : (0 <= mean_of (flags_of (s :: g)) /\ mean_of (flags_of (s :: g)) <= 1)%Q).
  { apply mean_of_bounds; [discriminate |].
    unfold flags_of. apply Forall_forall. intros x Hx.
    apply in_map_iff in Hx as [s0 [<- _]]. apply flag_unit. }
  destruct B as [B1 B2]. split; rewrite Qred_correct; assumption.
Qed.

Lemma barrel_rate_unit_interval_witness : (0 <= 1 # 2 /\ 1 # 2 <= 1)%Q.
Proof.
  refine (barrel_rate_unit_interval Samples.statcast 7 (1 # 2) _).
  left. reflexivity.
Defined.





(* ------------------------------------------------------------------ *)
(** *** The leaderboard and daily fetchers                            *)
(* ------------------------------------------------------------------ *)

Section Division.

Lemma truediv_zero (a b : value) :
  truediv a b = Raise ZeroDivisionError ->
  exists y, as_number b = Some y /\ Qeq_bool y 0 = true.
Proof.
  unfold truediv. destruct (as_number a); [| discriminate].
  destruct (as_number b) as [y |]; [| discriminate].
  destruct (Qeq_bool y 0) eqn:E; [eauto | discriminate].
Qed.

Lemma inject_Z_nonzero (z : Z) : z <> 0 -> Qeq_bool (inject_Z z) 0 = false.
Proof.
  intros Hz. destruct (Qeq_bool (inject_Z z) 0) eqn:E; [| reflexivity].
  apply Qeq_bool_eq in E. unfold Qeq, inject_Z in E. cbn in E. lia.
Qed.

Lemma py_or_one_nonzero (b : value) (y : Q) :
  as_number (py_or b (VInt 1)) = Some y -> Qeq_bool y 0 = false.
Proof.
  unfold py_or. destruct b as [| [] | z | q | s | l | d]; cbn;
    try (intros [= <-]; reflexivity).
  - destruct (Z.eqb_spec z 0) as [-> | Hz]; cbn; intros [= <-];
      [reflexivity | now apply inject_Z_nonzero].
  - destruct (Qeq_bool q 0) eqn:E; cbn; intros [= <-]; [reflexivity | exact E].
  - destruct (String.eqb s ""); cbn; [intros [= <-]; reflexivity | discriminate].
  - destruct l; cbn; [intros [= <-]; reflexivity | discriminate].
  - destruct d; cbn; [intros [= <-]; reflexivity | discriminate].
Qed.

Lemma gt0_nonzero (a : value) (y : Q) :
  gt0 a = Ok true -> as_number a = Some y -> Qeq_bool y 0 = false.
Proof.
  unfold gt0. intros H Hy. rewrite Hy in H. injection H as H.
  destruct (Qeq_bool y 0) eqn:E; [| reflexivity].
  apply Qeq_bool_eq in E. apply negb_true_iff in H.
  assert (T : Qle_bool y 0 = true) by (apply Qle_bool_iff; rewrite E; apply Qle_refl).
  congruence.
Qed.

Lemma never_top50_record (s : value) :
  never ZeroDivisionError (Hitters.top50_record s).
Proof.
  unfold Hitters.top50_record.
  repeat (apply never_bind;
          [first [apply never_getitem; discriminate | apply never_get; discriminate]
          | intros ? _]).
  apply never_bind.
  - intros H. apply truediv_zero in H as [y [Hy Hz]].
    apply py_or_one_nonzero in Hy. congruence.
  - intros ratio _.
    apply never_bind; [apply never_get; discriminate | intros ? _; apply never_Ok].
Qed.

Lemma never_top75_record (s : value) :
  never ZeroDivisionError (Fulldata.top75_record s).
Proof.
  unfold Fulldata.top75_record.
  apply never_bind; [apply never_getitem; discriminate | intros pl _].
  apply never_bind; [apply never_getitem; discriminate | intros st _].
  apply never_bind; [apply never_get; discriminate | intros at_bats _].
  cbv zeta.
  apply never_bind.
  { unfold never, gt0. destruct (as_number (py_or at_bats (VInt 0))); discriminate. }
  intros positive Hpos.
  apply never_bind.
  - destruct positive; [| apply never_Ok].
    apply never_bind; [apply never_get; discriminate | intros hr _].
    apply never_bind; [| intros; apply never_Ok].
    intros H. apply truediv_zero in H as [y [Hy Hz]].
    pose proof (gt0_nonzero _ _ Hpos Hy). congruence.
  - intros hr_pct _.
    repeat (apply never_bind;
            [first [apply never_getitem; discriminate | apply never_get; discriminate]
            | intros ? _]).
    apply never_Ok.
Qed.

End Division.

(** X11.  Neither leaderboard fetcher divides by zero, whatever the
    response holds: [fetch_top50] divides by the at-bats or, when they are
    zero, missing or empty, by one, and [fetch_top75_and_enrich] divides
    only by at-bats above zero. *)
Theorem leaderboards_never_divide_by_zero (resp : value) (sc : list sample) :
  never ZeroDivisionError (Hitters.fetch_top50 resp)
  /\ never ZeroDivisionError (Fulldata.fetch_top75_and_enrich resp sc).
Proof.
  split.
  - unfold Hitters.fetch_top50, Hitters.stats_splits.
    apply never_bind.
    { apply never_bind; [apply never_get; discriminate | intros ? _].
      apply never_bind; [apply never_getidx; discriminate | intros ? _].
      apply never_get; discriminate. }
    intros splits _.
    apply never_bind; [apply never_iter; discriminate | intros items _].
    apply never_bind; [apply never_mapM, never_top50_record | intros; apply never_Ok].
  - unfold Fulldata.fetch_top75_and_enrich, Fulldata.top75_base.
    apply never_bind.
    { apply never_bind; [apply never_get; discriminate | intros ? _].
      apply never_bind; [apply never_getidx; discriminate | intros ? _].
      apply never_bind; [apply never_get; discriminate | intros ? _].
      apply never_bind; [apply never_iter; discriminate | intros items _].
      apply never_bind; [apply never_mapM, never_top75_record | intros; apply never_Ok]. }
    intros df _. cbv zeta.
    assert (Hcol : forall d c, never ZeroDivisionError (getcol d c)).
    { intros d c. unfold never, getcol. destruct (index_of c (columns d)); discriminate. }
    apply never_bind; [apply Hcol | intros ids _].
    apply never_bind; [apply Hcol | intros ids' _]. apply never_Ok.
Qed.

(** X12.  A leaderboard response without a ["stats"] entry, or with an
    empty one, makes each of the three leaderboard fetchers fail with an
    index error. *)
Theorem leaderboards_need_stats (body : record) (sc : list sample) :
  assoc "stats" body = None \/ assoc "stats" body = Some (VList []) ->
  Hitters.fetch_top50 (VDict body) = Raise IndexError
  /\ Hitters.fetch_top50_pitchers (VDict body) = Raise IndexError
  /\ Fulldata.fetch_top75_and_enrich (VDict body) sc = Raise IndexError.
Proof.
  intros H.
  unfold Hitters.fetch_top50, Hitters.fetch_top50_pitchers, Hitters.stats_splits,
    Fulldata.fetch_top75_and_enrich, Fulldata.top75_base.
  rewrite !get_dict. destruct H as [-> | ->]; repeat split; reflexivity.
Qed.

Lemma leaderboards_need_stats_witness :
  Hitters.fetch_top50 (VDict []) = Raise IndexError
  /\ Hitters.fetch_top50_pitchers (VDict []) = Raise IndexError
  /\ Fulldata.fetch_top75_and_enrich (VDict []) [] = Raise IndexError.
Proof.
  refine (leaderboards_need_stats [] [] _). left. reflexivity.
Defined.

Section RowsInOrder.

Lemma assoc_own_keys (r : record) :
  NoDup (map fst r) ->
  map (fun c => match assoc c r with Some v => v | None => VNone end) (map fst r)
  = map snd r.
Proof.
  induction r as [| [k v] r IH]; cbn [map fst snd assoc]; intros Hnd; [reflexivity |].
  inversion Hnd as [| ? ? Hk Hnd']; subst.
  rewrite String.eqb_refl. f_equal.
  rewrite <- (IH Hnd'). apply map_ext_in. intros c Hc.
  destruct (String.eqb_spec c k) as [-> | _]; [contradiction | reflexivity].
Qed.

(** The frame of records that all have the same distinct keys holds one
    row per record, in order, with the record's values. *)
Lemma pd_DataFrame_rows (keys : list string) (recs : list record) :
  NoDup keys ->
  Forall (fun r => map fst r = keys) recs ->
  rows (pd_DataFrame recs) = map (map snd) recs.
Proof.
  intros Hnd HF. destruct recs as [| r rs]; [reflexivity |].
  cbn [pd_DataFrame rows].
  inversion HF as [| ? ? Hr _]; subst.
  apply map_ext_in. intros rc Hin.
  rewrite Forall_forall in HF. rewrite <- (HF rc Hin).
  apply assoc_own_keys. now rewrite (HF rc Hin).
Qed.

Lemma NoDup_strings (l : list string) : distinct_strings l = true -> NoDup l.
Proof.
  induction l as [| x l IH]; [constructor |].
  cbn [distinct_strings]. intros H. apply andb_true_iff in H as [Hx Hl].
  constructor; [| now apply IH].
  intros Hin. apply negb_true_iff in Hx.
  assert (T : existsb (String.eqb x) l = true).
  { apply existsb_exists. exists x. split; [assumption | apply String.eqb_refl]. }
  congruence.
Qed.

Lemma rows_of_mapM (f : value -> result record) (keys : list string)
    (items : list value) (recs : list record) :
  NoDup keys ->
  (forall s r, f s = Ok r -> map fst r = keys) ->
  mapM f items = Ok recs ->
  Forall2 (fun s row => exists r, f s = Ok r /\ row = map snd r)
          items (rows (pd_DataFrame recs)).
Proof.
  intros Hnd Hkeys HM. apply mapM_Forall2 in HM.
  rewrite (pd_DataFrame_rows keys); [| assumption |].
  - induction HM; cbn; constructor; eauto.
  - clear Hnd. induction HM; constructor; eauto.
Qed.

Lemma pitcher_record_keys (s : value) (r : record) :
  Hitters.pitcher_record s = Ok r ->
  map fst r = ["Pitcher"; "Player_ID"; "SO"; "ERA"; "Games"; "IP"; "Wins"; "Losses"].
Proof.
  unfold Hitters.pitcher_record. intros H. bind_inv H.
  injection H as <-. reflexivity.
Qed.

End RowsInOrder.

(** X13.  The frame a leaderboard fetcher returns holds exactly one row
    per split of the response, in the order of the response, and the row
    holds the values of the record built from that split: nothing is
    dropped, duplicated or re-sorted. *)
Theorem leaderboard_row_per_split :
  (forall resp df,
      Hitters.fetch_top50 resp = Ok df ->
      exists splits items,
        Hitters.stats_splits resp = Ok splits
        /\ iter splits = Ok items
        /\ Forall2 (fun s row => exists r, Hitters.top50_record s = Ok r /\ row = map snd r)
                   items (rows df))
  /\ (forall resp df,
        Hitters.fetch_top50_pitchers resp = Ok df ->
        exists splits items,
          Hitters.stats_splits resp = Ok splits
          /\ iter splits = Ok items
          /\ Forall2 (fun s row => exists r, Hitters.pitcher_record s = Ok r
                                             /\ row = map snd r)
                     items (rows df))
  /\ (forall resp df,
        Fulldata.top75_base resp = Ok df ->
        exists splits items,
          Hitters.stats_splits resp = Ok splits
          /\ iter splits = Ok items
          /\ Forall2 (fun s row => exists r, Fulldata.top75_record s = Ok r
                                             /\ row = map snd r)
                     items (rows df)).
Proof.
  assert (Hall : forall (f : value -> result record) keys resp df,
             distinct_strings keys = true ->
             (forall s r, f s = Ok r -> map fst r = keys) ->
             (splits <- Hitters.stats_splits resp ;;
              items <- iter splits ;;
              data <- mapM f items ;;
              Ok (pd_DataFrame data)) = Ok df ->
             exists splits items,
               Hitters.stats_splits resp = Ok splits
               /\ iter splits = Ok items
               /\ Forall2 (fun s row => exists r, f s = Ok r /\ row = map snd r)
                          items (rows df)).
  { intros f keys resp df Hnd Hk H.
    apply bind_Ok_inv in H as [splits [Hs H]].
    apply bind_Ok_inv in H as [items [Hi H]].
    apply bind_Ok_inv in H as [data [Hd H]]. injection H as <-.
    exists splits, items. repeat split; auto.
    eapply rows_of_mapM; eauto using NoDup_strings. }
  split; [| split].
  - intros resp df H. eapply Hall; [| apply top50_record_keys | exact H]. reflexivity.
  - intros resp df H. eapply Hall; [| apply pitcher_record_keys | exact H]. reflexivity.
  - intros resp df H. eapply Hall; [| apply top75_record_keys |]; [reflexivity |].
    rewrite <- H. unfold Fulldata.top75_base, Hitters.stats_splits.
    destruct (get resp "stats" (VList [])) as [stats |]; [| reflexivity]. cbn [bind].
    destruct (getidx stats 0) as [first |]; reflexivity.
Qed.

Lemma leaderboard_row_per_split_witness :
  exists splits items,
    Hitters.stats_splits Samples2.top50_response = Ok splits
    /\ iter splits = Ok items
    /\ Forall2 (fun s row => exists r, Hitters.top50_record s = Ok r /\ row = map snd r)
               items
               [[VStr "A"; VInt 7; VInt 50; VInt 60; VStr ".250"; VStr ".500";
                 VFloat (2500 # 10000); VInt 200];
                [VStr "B"; VInt 8; VInt 0; VInt 60; VStr ".250"; VStr ".500";
                 VFloat (0 # 10000); VInt 0]].
Proof.
  refine (proj1 leaderboard_row_per_split Samples2.top50_response
            (mkDF ["Batter"; "Player_ID"; "HRs"; "Games"; "AVG"; "SLG"; "HR%"; "AB"]
                  [[VStr "A"; VInt 7; VInt 50; VInt 60; VStr ".250"; VStr ".500";
                    VFloat (2500 # 10000); VInt 200];
                   [VStr "B"; VInt 8; VInt 0; VInt 60; VStr ".250"; VStr ".500";
                    VFloat (0 # 10000); VInt 0]]) _).
  reflexivity.
Defined.

Lemma daily_record_dict (date_str : string) (rec : record) :
  Hitters.daily_record date_str (VDict rec)
  = Ok [("Date", VStr date_str); ("Batter", entry "batter_name" rec);
        ("Exit_Vel", entry "hit_speed" rec); ("Distance", entry "hit_distance" rec);
        ("Pitch", entry "pitch_name" rec); ("Pitcher", entry "pitcher_name" rec)].
Proof. reflexivity. Qed.

(** X14.  On a daily feed that is a list of dicts [fetch_daily] does not
    fail, whatever keys the dicts have: it returns the date it was given
    and a table with one row per entry of the feed, in feed order, holding
    the date and the entry's batter, exit speed, distance, pitch and
    pitcher, each missing when the entry lacks it.  An entry that is not a
    dict makes it fail with an attribute error. *)
Theorem fetch_daily_row_per_entry (date_str : string) (recs : list record) :
  (exists df,
      Hitters.fetch_daily date_str (VList (map VDict recs)) = Ok (df, date_str)
      /\ rows df = map (daily_row date_str) recs
      /\ (recs <> [] ->
          columns df = ["Date"; "Batter"; "Exit_Vel"; "Distance"; "Pitch"; "Pitcher"]))
  /\ (forall before v after,
        (forall d, v <> VDict d) ->
        Hitters.fetch_daily date_str (VList (map VDict before ++ v :: after))
        = Raise AttributeError).
Proof.
  split.
  - unfold Hitters.fetch_daily. cbn [iter bind].
    assert (HM : mapM (Hitters.daily_record date_str) (map VDict recs)
                 = Ok (map (fun rec =>
                              [("Date", VStr date_str); ("Batter", entry "batter_name" rec);
                               ("Exit_Vel", entry "hit_speed" rec);
                               ("Distance", entry "hit_distance" rec);
                               ("Pitch", entry "pitch_name" rec);
                               ("Pitcher", entry "pitcher_name" rec)]) recs)).
    { induction recs as [| rec recs IH]; [reflexivity |].
      cbn [map mapM]. rewrite daily_record_dict. cbn [bind]. now rewrite IH. }
    rewrite HM. cbn [bind]. eexists. split; [reflexivity |]. split.
    + rewrite (pd_DataFrame_rows
                 ["Date"; "Batter"; "Exit_Vel"; "Distance"; "Pitch"; "Pitcher"]).
      * rewrite map_map. reflexivity.
      * apply NoDup_strings. reflexivity.
      * apply Forall_forall. intros r Hr. apply in_map_iff in Hr as [rec [<- _]].
        reflexivity.
    + intros Hne. destruct recs; [contradiction | reflexivity].
  - intros before v after Hv. unfold Hitters.fetch_daily. cbn [iter bind].
    assert (HM : mapM (Hitters.daily_record date_str) (map VDict before ++ v :: after)
                 = Raise AttributeError).
    { induction before as [| rec before IH].
      - cbn [map app mapM].
        assert (E : Hitters.daily_record date_str v = Raise AttributeError).
        { destruct v; try reflexivity. exfalso. now apply (Hv d). }
        now rewrite E.
      - cbn [map app mapM]. rewrite daily_record_dict. cbn [bind]. now rewrite IH. }
    now rewrite HM.
Qed.

(** X15.  The two leaderboard fetchers treat a split without home-run
    entry differently: [fetch_top50] fails with a key error, while
    [fetch_top75_and_enrich] records missing home runs and computes the
    home-run percentage as if there were none (0.0 for positive at-bats,
    undefined otherwise); games, average and slugging are optional there
    too. *)
Theorem home_runs_required_or_optional
    (sd pl st : record) (pid name : value) (ab : Z) :
  assoc "player" sd = Some (VDict pl) ->
  assoc "stat" sd = Some (VDict st) ->
  assoc "id" pl = Some pid ->
  assoc "fullName" pl = Some name ->
  assoc "homeRuns" st = None ->
  at_bats_entry st ab ->
  Hitters.top50_record (VDict sd) = Raise KeyError
  /\ Fulldata.top75_record (VDict sd)
     = Ok [("Player_ID", pid); ("Batter", name); ("HRs", VNone);
           ("Games", entry "gamesPlayed" st); ("AVG", entry "avg" st);
           ("SLG", entry "slg" st);
           ("HR%", if 0 <? ab then VFloat (round4 (inject_Z 0 / inject_Z ab)) else VNone);
           ("AB", VInt ab)].
Proof.
  intros Hpl Hst Hid Hname Hhr Hab. split.
  - unfold Hitters.top50_record.
    rewrite (getitem_dict _ _ _ Hpl). cbn [bind].
    rewrite (getitem_dict _ _ _ Hname). cbn [bind].
    rewrite (getitem_dict _ _ _ Hid). cbn [bind].
    rewrite (getitem_dict _ _ _ Hst). cbn [bind].
    unfold getitem. now rewrite Hhr.
  - unfold Fulldata.top75_record.
    rewrite (getitem_dict _ _ _ Hpl), (getitem_dict _ _ _ Hst). cbn [bind].
    rewrite get_dict.
    assert (Hpy : py_or (match assoc "atBats" st with Some v => v | None => VInt 0 end)
                        (VInt 0) = VInt ab).
    { destruct Hab as [-> | [-> ->]]; [| reflexivity].
      unfold py_or. rewrite truthy_int.
      destruct (Z.eqb_spec ab 0) as [-> |]; reflexivity. }
    cbn [bind]. rewrite Hpy, gt0_int. cbn [bind].
    rewrite (getitem_dict _ _ _ Hid), (getitem_dict _ _ _ Hname), !get_dict, Hhr.
    unfold entry.
    destruct (Z.ltb_spec 0 ab) as [Hpos | Hneg]; cbn [bind].
    + rewrite truediv_int by lia. reflexivity.
    + reflexivity.
Qed.

Lemma home_runs_required_or_optional_witness :
  Hitters.top50_record (VDict Samples2.split_without_home_runs) = Raise KeyError
  /\ Fulldata.top75_record (VDict Samples2.split_without_home_runs)
     = Ok [("Player_ID", VInt 7); ("Batter", VStr "A"); ("HRs", VNone);
           ("Games", VInt 60); ("AVG", VNone); ("SLG", VNone);
           ("HR%", VFloat (round4 (inject_Z 0 / inject_Z 200))); ("AB", VInt 200)].
Proof.
  refine (home_runs_required_or_optional
            Samples2.split_without_home_runs
            [("id", VInt 7); ("fullName", VStr "A")]
            [("gamesPlayed", VInt 60); ("atBats", VInt 200)]
            (VInt 7) (VStr "A") 200 _ _ _ _ _ _);
    first [reflexivity | left; reflexivity].
Defined.

(* ------------------------------------------------------------------ *)
(** *** Workbooks                                                     *)
(* ------------------------------------------------------------------ *)

Section Sheets.

Lemma to_excel_names_unique (wb : workbook) (name : string) (df : DataFrame) :
  NoDup (sheet_names wb) -> NoDup (sheet_names (to_excel wb name df)).
Proof.
  intros Hnd.
  destruct (sheet_names_to_excel wb name df) as [[_ ->] | [Hout ->]]; [assumption |].
  apply NoDup_app; [assumption | repeat constructor; intros [] |].
  intros n Hin [<- | []]. contradiction.
Qed.

Lemma to_excel_has_name (wb : workbook) (name : string) (df : DataFrame) :
  In name (sheet_names (to_excel wb name df)).
Proof.
  destruct (sheet_names_to_excel wb name df) as [[Hin ->] | [_ ->]]; [assumption |].
  apply in_or_app. right. now left.
Qed.

Lemma to_excel_keeps_names (wb : workbook) (name n : string) (df : DataFrame) :
  In n (sheet_names wb) -> In n (sheet_names (to_excel wb name df)).
Proof.
  intros Hin.
  destruct (sheet_names_to_excel wb name df) as [[_ ->] | [_ ->]]; [assumption |].
  apply in_or_app. now left.
Qed.

Lemma to_excel_twice (wb : workbook) (name : string) (d1 d2 : DataFrame) :
  to_excel (to_excel wb name d1) name d2 = to_excel wb name d2.
Proof.
  induction wb as [| [n d] wb IH]; cbn.
  - now rewrite String.eqb_refl.
  - destruct (String.eqb name n) eqn:E; cbn.
    + now rewrite String.eqb_refl.
    + now rewrite E, IH.
Qed.

End Sheets.

(** X16.  Sheet names stay unique, and no sheet is lost: after
    [write_sheet] in append mode the workbook has the written name, every
    name it had before and no name twice, and writing the same name again
    leaves just the later table under it. *)
Theorem write_sheet_names (df df' : DataFrame) (name : string) (wb : workbook) :
  NoDup (sheet_names wb) ->
  exists wb',
    Fulldata.write_sheet df name "a" (Book wb) = Ok (Book wb')
    /\ NoDup (sheet_names wb')
    /\ In name (sheet_names wb')
    /\ (forall n, In n (sheet_names wb) -> In n (sheet_names wb'))
    /\ Fulldata.write_sheet df' name "a" (Book wb')
       = Fulldata.write_sheet df' name "a" (Book wb).
Proof.
  intros Hnd. exists (to_excel wb name df).
  split; [reflexivity |].
  split; [now apply to_excel_names_unique |].
  split; [apply to_excel_has_name |].
  split; [intros n; apply to_excel_keeps_names |].
  unfold Fulldata.write_sheet. cbn. now rewrite to_excel_twice.
Qed.

Lemma write_sheet_names_witness :
  exists wb',
    Fulldata.write_sheet Samples.leaderboard "T" "a" (Book [("S", mkDF [] [])])
    = Ok (Book wb')
    /\ NoDup (sheet_names wb')
    /\ In "T" (sheet_names wb')
    /\ (forall n, In n (sheet_names [("S", mkDF [] [])]) -> In n (sheet_names wb'))
    /\ Fulldata.write_sheet (mkDF [] []) "T" "a" (Book wb')
       = Fulldata.write_sheet (mkDF [] []) "T" "a" (Book [("S", mkDF [] [])]).
Proof.
  refine (write_sheet_names Samples.leaderboard (mkDF [] []) "T" [("S", mkDF [] [])] _).
  repeat constructor. intros [].
Defined.

Section WriteSheets.




End WriteSheets.


(* ------------------------------------------------------------------ *)
(** *** The day-range script                                          *)
(* ------------------------------------------------------------------ *)

Section DayLoop.

Import Fulldata.

Lemma string_length_app (s t : string) :
  String.length (s ++ t) = (String.length s + String.length t)%nat.
Proof. induction s as [| c s IH]; cbn; [reflexivity | now rewrite IH]. Qed.

Lemma append_cancel_r (t s1 s2 : string) :
  (s1 ++ t)%string = (s2 ++ t)%string -> s1 = s2.
Proof.
  revert s2. induction s1 as [| c s1 IH]; intros [| c' s2] H; cbn in H.
  - reflexivity.
  - apply (f_equal String.length) in H. cbn in H. rewrite string_length_app in H. lia.
  - apply (f_equal String.length) in H. cbn in H. rewrite string_length_app in H. lia.
  - injection H as -> H. f_equal. now apply IH.
Qed.

Lemma day_sheet_inj (d d' : string) : day_sheet d = day_sheet d' -> d = d'.
Proof. apply append_cancel_r. Qed.

Lemma day_sheet_not_top (d : string) : day_sheet d <> "data_Top_HR_Batters".
Proof.
  unfold day_sheet. intros H.
  do 20 (try (destruct d as [| ? d]; cbn in H;
              [discriminate H | first [discriminate H | injection H as _ H]])).
Qed.

Variable schedule : string -> value.
Variable live_feed : value -> value.

(** What the loop over the days makes of a workbook. *)
Lemma days_loop (days : list string) :
  Forall (fun d => exists df,
              fetch_daily_homers_for live_feed d (schedule d) = Ok df) days ->
  forall wb log,
  exists wb' log',
    foldM (day_step schedule live_feed) days (Book wb, log) = Ok (Book wb', log')
    /\ List.length log' = (List.length log + List.length days)%nat
    /\ (NoDup (sheet_names wb) -> NoDup (sheet_names wb'))
    /\ (forall n, (forall d, In d days -> n <> day_sheet d) -> sheet n wb' = sheet n wb)
    /\ (forall d df, In d days ->
          fetch_daily_homers_for live_feed d (schedule d) = Ok df ->
          if empty df
          then sheet (day_sheet d) wb' = sheet (day_sheet d) wb /\ In (NoHomers d) log'
          else sheet (day_sheet d) wb' = Some df)
    /\ (forall x, In x log -> In x log').
Proof.
  induction 1 as [| d days [df Hdf] _ IH]; intros wb log.
  - exists wb, log. cbn [foldM].
    split; [reflexivity |]. split; [cbn; lia |]. split; [auto |].
    split; [reflexivity |]. split; [intros d df [] | auto].
  - cbn [foldM]. unfold day_step at 1. rewrite Hdf. cbn [bind fst snd].
    fold (day_sheet d).
    destruct (empty df) eqn:Edf.
    + cbn [bind].
      destruct (IH wb (log ++ [NoHomers d])) as [wb' [log' [Hrun [Hlen [Hnd [Hkeep [Hday Hlog]]]]]]].
      exists wb', log'. split; [exact Hrun |].
      split; [rewrite Hlen, length_app; cbn; lia |].
      split; [exact Hnd |].
      split; [intros n Hn; apply Hkeep; intros d' Hd'; apply Hn; now right |].
      split.
      * intros d' df' [<- | Hin] Hd'.
        -- assert (df' = df) by congruence. subst df'. rewrite Edf. split.
           ++ destruct (in_dec string_dec d days) as [Hin | Hout].
              ** specialize (Hday d df Hin Hdf). rewrite Edf in Hday. apply Hday.
              ** apply Hkeep. intros d'' Hd'' E. apply day_sheet_inj in E. congruence.
           ++ apply Hlog, in_or_app. right. now left.
        -- apply (Hday d' df' Hin Hd').
      * intros x Hx. apply Hlog, in_or_app. now left.
    + unfold write_sheet. cbn [String.eqb Ascii.eqb Bool.eqb open_writer bind].
      change (open_writer "a" (Book wb)) with (Ok wb). cbn [bind].
      destruct (IH (to_excel wb (day_sheet d) df)
                   (log ++ [WroteDay (day_sheet d) (List.length (rows df))]))
        as [wb' [log' [Hrun [Hlen [Hnd [Hkeep [Hday Hlog]]]]]]].
      exists wb', log'. split; [exact Hrun |].
      split; [rewrite Hlen, length_app; cbn; lia |].
      split; [intros Hn; now apply Hnd, to_excel_names_unique |].
      split.
      { intros n Hn. rewrite Hkeep by (intros d' Hd'; apply Hn; now right).
        apply sheet_to_excel_other. apply Hn. now left. }
      split.
      * intros d' df' [<- | Hin] Hd'.
        -- assert (df' = df) by congruence. subst df'. rewrite Edf.
           destruct (in_dec string_dec d days) as [Hin | Hout].
           ++ specialize (Hday d df Hin Hdf). now rewrite Edf in Hday.
           ++ rewrite Hkeep.
              ** apply sheet_to_excel_same.
              ** intros d'' Hd'' E. apply day_sheet_inj in E. congruence.
        -- specialize (Hday d' df' Hin Hd').
           destruct (empty df') eqn:Edf'; [| exact Hday].
           destruct Hday as [Hs Hl]. split; [| exact Hl].
           rewrite Hs. apply sheet_to_excel_other.
           intros E. apply day_sheet_inj in E. subst d'. congruence.
      * intros x Hx. apply Hlog, in_or_app. now left.
Qed.

End DayLoop.

(** X18.  When the leaderboard and every day of the window can be
    fetched, [main] of the day-range script succeeds, and what it leaves
    does not depend on what was at the workbook's path before: a workbook
    with unique sheet names that holds the enriched leaderboard under
    ["data_Top_HR_Batters"] and, for every day, the day's table under the
    day's name when that table is not empty and no sheet of that name when
    it is; it prints one line for the leaderboard and one per day, a
    skipped day's being the notice that there were no home runs. *)
Theorem fulldata_main_workbook
    (resp : value) (sc : list sample) (schedule : string -> value)
    (live_feed : value -> value) (days : list string) (top75 : DataFrame) :
  Fulldata.fetch_top75_and_enrich resp sc = Ok top75 ->
  Forall (fun d => exists df,
              Fulldata.fetch_daily_homers_for live_feed d (schedule d) = Ok df) days ->
  exists wb log,
    (forall f0, Fulldata.main resp sc schedule live_feed days f0 = Ok (Book wb, log))
    /\ List.length log = S (List.length days)
    /\ NoDup (sheet_names wb)
    /\ sheet "data_Top_HR_Batters" wb = Some top75
    /\ (forall d df, In d days ->
          Fulldata.fetch_daily_homers_for live_feed d (schedule d) = Ok df ->
          if empty df
          then sheet (day_sheet d) wb = None /\ In (Fulldata.NoHomers d) log
          else sheet (day_sheet d) wb = Some df).
Proof.
  intros Htop Hdays.
  destruct (days_loop schedule live_feed days Hdays
              [("data_Top_HR_Batters", top75)] [Fulldata.WroteTop])
    as [wb [log [Hrun [Hlen [Hnd [Hkeep [Hday _]]]]]]].
  exists wb, log. split; [| split; [| split; [| split]]].
  - intros f0. unfold Fulldata.main. rewrite Htop. cbn [bind]. cbv zeta.
    assert (E : forall f, Fulldata.write_sheet top75 "data_Top_HR_Batters" "w" f
                          = Ok (Book [("data_Top_HR_Batters", top75)]))
      by reflexivity.
    rewrite E. cbn [bind]. exact Hrun.
  - rewrite Hlen. reflexivity.
  - apply Hnd. repeat constructor. intros [].
  - rewrite Hkeep; [reflexivity |].
    intros d _ E. symmetry in E. now apply day_sheet_not_top in E.
  - intros d df Hin Hd. specialize (Hday d df Hin Hd).
    destruct (empty df); [| exact Hday].
    destruct Hday as [Hs Hl]. split; [| exact Hl].
    rewrite Hs. cbn [sheet].
    destruct (String.eqb_spec (day_sheet d) "data_Top_HR_Batters") as [E | _];
      [now apply day_sheet_not_top in E | reflexivity].
Qed.

Lemma fulldata_main_workbook_witness :
  exists wb log,
    (forall f0,
        Fulldata.main Samples2.top50_response Samples.statcast Samples2.schedule_of
                      Samples.live_feed ["2025-06-09"; "2025-06-10"] f0
        = Ok (Book wb, log))
    /\ List.length log = 3%nat
    /\ NoDup (sheet_names wb)
    /\ sheet "data_Top_HR_Batters" wb = Some Samples2.top75_frame
    /\ (forall d df, In d ["2025-06-09"; "2025-06-10"] ->
          Fulldata.fetch_daily_homers_for Samples.live_feed d (Samples2.schedule_of d)
          = Ok df ->
          if empty df
          then sheet (day_sheet d) wb = None /\ In (Fulldata.NoHomers d) log
          else sheet (day_sheet d) wb = Some df).
Proof.
  refine (fulldata_main_workbook
            Samples2.top50_response Samples.statcast Samples2.schedule_of
            Samples.live_feed ["2025-06-09"; "2025-06-10"] Samples2.top75_frame _ _).
  - vm_compute. reflexivity.
  - repeat constructor; eexists; vm_compute; reflexivity.
Defined.

(** X19.  The day-range fetch reads only the first date entry of the
    schedule response: two responses with the same first entry give the
    same table, whatever entries follow. *)
Theorem fetch_daily_homers_first_date_entry
    (live_feed : value -> value) (dstr : string) (body body' : record)
    (first : value) (rest rest' : list value) :
  assoc "dates" body = Some (VList (first :: rest)) ->
  assoc "dates" body' = Some (VList (first :: rest')) ->
  Fulldata.fetch_daily_homers_for live_feed dstr (VDict body)
  = Fulldata.fetch_daily_homers_for live_feed dstr (VDict body').
Proof.
  intros H H'. unfold Fulldata.fetch_daily_homers_for.
  rewrite !get_dict, H, H'. reflexivity.
Qed.

Lemma fetch_daily_homers_first_date_entry_witness :
  Fulldata.fetch_daily_homers_for Samples.live_feed "2025-06-10" Samples.doubleheader
  = Fulldata.fetch_daily_homers_for Samples.live_feed "2025-06-10"
      (VDict [("dates",
               VList [VDict [("games", VList [VDict [("gamePk", VInt 201)];
                                              VDict [("gamePk", VInt 202)]])];
                      VDict [("games", VList [VDict [("gamePk", VInt 203)]])]])]).
Proof.
  refine (fetch_daily_homers_first_date_entry Samples.live_feed "2025-06-10"
            _ _ _ [] [VDict [("games", VList [VDict [("gamePk", VInt 203)]])]] _ _);
    reflexivity.
Defined.

(* ------------------------------------------------------------------ *)
(** *** The matchup builder and the hitters script                    *)
(* ------------------------------------------------------------------ *)

(** X20.  When the schedule's date entry lists no game, the matchup
    builder returns the empty table and does not read the pitcher
    leaderboard: the result is the same whatever that response holds. *)
Theorem matchups_without_games
    (body first : record) (rest : list value) (pitchers : value) :
  assoc "dates" body = Some (VList (VDict first :: rest)) ->
  assoc "games" first = None \/ assoc "games" first = Some (VList []) ->
  Hitters.fetch_today_matchups (VDict body) pitchers = Ok (mkDF [] []).
Proof.
  intros Hd Hg. unfold Hitters.fetch_today_matchups.
  rewrite get_dict, Hd. cbn [bind getidx nth_error]. rewrite get_dict.
  destruct Hg as [-> | ->]; reflexivity.
Qed.

Lemma matchups_without_games_witness :
  Hitters.fetch_today_matchups Samples2.empty_day VNone = Ok (mkDF [] []).
Proof.
  refine (matchups_without_games _ [("games", VList [])] [] VNone _ _).
  - reflexivity.
  - right. reflexivity.
Defined.

Lemma matchups_empty_dates (schedule pitchers : value) :
  get schedule "dates" (VList []) = Ok (VList []) ->
  Hitters.fetch_today_matchups schedule pitchers = Raise IndexError.
Proof. intros H. unfold Hitters.fetch_today_matchups. now rewrite H. Qed.

(** X21.  On a day for which the schedule has no date entry the hitters
    script writes nothing: it cannot succeed, and when the four fetches
    before the matchup builder succeed it ends in the index error of the
    matchup builder, the tables fetched so far unwritten. *)
Theorem hitters_script_off_day
    (date_str : string) (runs top50 : value) (sc : list sample)
    (pitchers schedule pitchers' : value) (output_xlsx : file) :
  get schedule "dates" (VList []) = Ok (VList []) ->
  (forall out,
      HittersScript.main date_str runs top50 sc pitchers schedule pitchers' output_xlsx
      <> Ok out)
  /\ (forall daily top50_df enriched pitchers_df,
        Hitters.fetch_daily date_str runs = Ok daily ->
        Hitters.fetch_top50 top50 = Ok top50_df ->
        Hitters.enrich_top50 sc top50_df = Ok enriched ->
        Hitters.fetch_top50_pitchers pitchers = Ok pitchers_df ->
        HittersScript.main date_str runs top50 sc pitchers schedule pitchers' output_xlsx
        = Raise IndexError).
Proof.
  intros Hd. pose proof (matchups_empty_dates schedule pitchers' Hd) as Hm. split.
  - intros out H. unfold HittersScript.main in H.
    apply bind_Ok_inv in H as [daily [_ H]].
    apply bind_Ok_inv in H as [top50_df [_ H]].
    apply bind_Ok_inv in H as [enriched [_ H]].
    apply bind_Ok_inv in H as [pitchers_df [_ H]].
    rewrite Hm in H. discriminate.
  - intros daily top50_df enriched pitchers_df H1 H2 H3 H4.
    unfold HittersScript.main. rewrite H1. cbn [bind]. rewrite H2. cbn [bind].
    rewrite H3. cbn [bind]. rewrite H4. cbn [bind]. now rewrite Hm.
Qed.

Lemma hitters_script_off_day_witness :
  HittersScript.main "2025-06-10" (VList []) Samples2.top50_response Samples.statcast
                     Samples.pitchers Samples.no_games Samples.pitchers Missing
  = Raise IndexError.
Proof.
  refine (proj2 (hitters_script_off_day "2025-06-10" (VList []) Samples2.top50_response
                   Samples.statcast Samples.pitchers Samples.no_games Samples.pitchers
                   Missing _) _ _ _ _ _ _ _ _);
    vm_compute; reflexivity.
Defined.

Section PitcherLookup.

Import Hitters.

Lemma key_eqb_number (k a b : value) (x : Q) :
  as_number k = Some x ->
  key_eqb k a = true -> key_eqb k b = true -> key_eqb a b = true.
Proof.
  unfold key_eqb. intros Hk. rewrite Hk.
  destruct (as_number a) as [y |].
  - destruct (as_number b) as [z |].
    + intros H1 H2. apply Qeq_bool_iff in H1, H2. apply Qeq_bool_iff.
      now rewrite <- H1, <- H2.
    + intros _ H. destruct k; cbn in Hk; try discriminate; destruct b; discriminate.
  - intros H. destruct k; cbn in Hk; try discriminate; destruct a; discriminate.
Qed.

(** With distinct keys, a lookup under a number finds the entry whose key
    equals the number. *)
Lemma key_assoc_found (k k' : value) (x : Q) (r : record) (m : list (value * record)) :
  as_number k = Some x ->
  distinct_keys (map fst m) = true ->
  In (k', r) m ->
  key_eqb k k' = true ->
  key_assoc k m = Some r.
Proof.
  intros Hk. induction m as [| [k0 r0] m IH]; cbn [map fst distinct_keys key_assoc In];
    intros Hd Hin He; [contradiction |].
  apply andb_true_iff in Hd as [Hd0 Hd].
  destruct Hin as [[= -> ->] | Hin].
  - now rewrite He.
  - destruct (key_eqb k k0) eqn:E0; [| now apply IH].
    exfalso. apply negb_true_iff in Hd0.
    assert (T : existsb (key_eqb k0) (map fst m) = true).
    { apply existsb_exists. exists k'. split.
      - now apply (in_map fst) in Hin.
      - eapply key_eqb_number; eauto. }
    congruence.
Qed.

Lemma index_to_dict_pitchers (ps : DataFrame) (m : list (value * record)) :
  columns ps = ["Pitcher"; "Player_ID"; "SO"; "ERA"; "Games"; "IP"; "Wins"; "Losses"] ->
  index_to_dict ps "Player_ID" = Ok m ->
  distinct_keys (map fst m) = true
  /\ m = map (fun r => (nth 1 r VNone,
                        combine ["Pitcher"; "SO"; "ERA"; "Games"; "IP"; "Wins"; "Losses"]
                                (remove_nth 1 r)))
             (rows ps).
Proof.
  intros Hc. unfold index_to_dict. rewrite Hc. cbn [index_of String.eqb Ascii.eqb Bool.eqb].
  cbn [remove_nth].
  destruct (distinct_keys (map (fun r => nth 1 r VNone) (rows ps))) eqn:Hd; [| discriminate].
  intros [= <-]. split; [| reflexivity]. now rewrite map_map.
Qed.

Lemma pitcher_row_dict (rec : record) :
  map fst rec = ["Pitcher"; "Player_ID"; "SO"; "ERA"; "Games"; "IP"; "Wins"; "Losses"] ->
  assoc "Player_ID" rec = Some (nth 1 (map snd rec) VNone)
  /\ assoc "ERA" (combine ["Pitcher"; "SO"; "ERA"; "Games"; "IP"; "Wins"; "Losses"]
                          (remove_nth 1 (map snd rec)))
     = assoc "ERA" rec
  /\ assoc "SO" (combine ["Pitcher"; "SO"; "ERA"; "Games"; "IP"; "Wins"; "Losses"]
                         (remove_nth 1 (map snd rec)))
     = assoc "SO" rec.
Proof.
  intros H.
  do 8 (destruct rec as [| [? ?] rec]; [discriminate H |]).
  destruct rec; [| discriminate H].
  cbn in H. injection H as -> -> -> -> -> -> -> ->.
  repeat split; reflexivity.
Qed.

Lemma stats_of_listed_pitcher (pitchers : value) (ps : DataFrame)
    (m : list (value * record)) (splits : value) (items : list value)
    (s : value) (rec : record) (k : Z) :
  fetch_top50_pitchers pitchers = Ok ps ->
  index_to_dict ps "Player_ID" = Ok m ->
  stats_splits pitchers = Ok splits ->
  iter splits = Ok items ->
  In s items ->
  pitcher_record s = Ok rec ->
  assoc "Player_ID" rec = Some (VInt k) ->
  Some (stat_or_empty m "ERA" (VInt k)) = assoc "ERA" rec
  /\ Some (stat_or_empty m "SO" (VInt k)) = assoc "SO" rec.
Proof.
  intros Hps Hm Hsp Hit Hin Hrec Hid.
  unfold fetch_top50_pitchers in Hps. rewrite Hsp in Hps. cbn [bind] in Hps.
  rewrite Hit in Hps. cbn [bind] in Hps.
  apply bind_Ok_inv in Hps as [recs [Hrecs Hps]]. injection Hps as <-.
  pose proof Hrecs as HF. apply mapM_Forall2 in HF.
  assert (Hkeys : Forall (fun r => map fst r
                                   = ["Pitcher"; "Player_ID"; "SO"; "ERA"; "Games"; "IP";
                                      "Wins"; "Losses"]) recs).
  { clear - HF. induction HF; constructor; eauto using pitcher_record_keys. }
  assert (Hrin : In rec recs).
  { clear - HF Hin Hrec. induction HF as [| s0 r0 items recs H0 _ IH]; [contradiction |].
    destruct Hin as [-> | Hin]; [left; congruence | right; auto]. }
  assert (Hcols : columns (pd_DataFrame recs)
                  = ["Pitcher"; "Player_ID"; "SO"; "ERA"; "Games"; "IP"; "Wins"; "Losses"]).
  { destruct recs as [| r0 recs]; [contradiction |]. cbn [pd_DataFrame columns].
    now inversion Hkeys. }
  destruct (index_to_dict_pitchers _ _ Hcols Hm) as [Hd ->].
  assert (Hrows : rows (pd_DataFrame recs) = map (map snd) recs).
  { apply (pd_DataFrame_rows
             ["Pitcher"; "Player_ID"; "SO"; "ERA"; "Games"; "IP"; "Wins"; "Losses"]);
      [apply NoDup_strings; reflexivity | exact Hkeys]. }
  rewrite Hrows in Hd |- *. clear Hm.
  rewrite Forall_forall in Hkeys.
  destruct (pitcher_row_dict rec (Hkeys rec Hrin)) as [Hpid [Hera Hso]].
  assert (Hfound :
    key_assoc (VInt k)
      (map (fun r => (nth 1 r VNone,
                      combine ["Pitcher"; "SO"; "ERA"; "Games"; "IP"; "Wins"; "Losses"]
                              (remove_nth 1 r)))
           (map (map snd) recs))
    = Some (combine ["Pitcher"; "SO"; "ERA"; "Games"; "IP"; "Wins"; "Losses"]
                    (remove_nth 1 (map snd rec)))).
  { apply (key_assoc_found (VInt k) (nth 1 (map snd rec) VNone) (inject_Z k)).
    - reflexivity.
    - exact Hd.
    - apply in_map_iff. exists (map snd rec). split; [reflexivity |].
      now apply in_map.
    - assert (E : nth 1 (map snd rec) VNone = VInt k) by congruence.
      rewrite E. unfold key_eqb. cbn. apply Qeq_bool_iff. reflexivity. }
  unfold stat_or_empty. rewrite Hfound, Hera, Hso.
  assert (He : exists v, assoc "ERA" rec = Some v).
  { rewrite <- Hera. unfold pitcher_record in Hrec.
    pose proof (Hkeys rec Hrin) as Hk.
    do 8 (destruct rec as [| [? ?] rec]; [discriminate Hk |]).
    cbn in Hk. injection Hk as -> -> -> -> -> -> -> ->. cbn. eauto. }
  assert (Hs : exists v, assoc "SO" rec = Some v).
  { pose proof (Hkeys rec Hrin) as Hk.
    do 8 (destruct rec as [| [? ?] rec]; [discriminate Hk |]).
    cbn in Hk. injection Hk as -> -> -> -> -> -> -> ->. cbn. eauto. }
  destruct He as [v ->], Hs as [w ->]. auto.
Qed.

End PitcherLookup.

(** X22.  A starter whom the pitcher leaderboard lists gets his own
    statistics: when a row's starter identifier is the integer identifier
    of a split of the pitcher leaderboard, the row's ERA and strikeouts are
    the ERA and the strikeouts of that split. *)
Theorem matchup_stats_of_listed_pitcher
    (schedule pitchers : value) (df : DataFrame) (n : nat) (k : Z)
    (splits : value) (items : list value) (s : value) (rec : record) :
  Hitters.fetch_today_matchups schedule pitchers = Ok df ->
  Hitters.stats_splits pitchers = Ok splits ->
  iter splits = Ok items ->
  In s items ->
  Hitters.pitcher_record s = Ok rec ->
  assoc "Player_ID" rec = Some (VInt k) ->
  (cell df n "Home_Starter_ID" = Some (VInt k) ->
   cell df n "Home_ERA" = assoc "ERA" rec /\ cell df n "Home_SO" = assoc "SO" rec)
  /\ (cell df n "Away_Starter_ID" = Some (VInt k) ->
      cell df n "Away_ERA" = assoc "ERA" rec /\ cell df n "Away_SO" = assoc "SO" rec).
Proof.
  intros Hdf Hsp Hit Hin Hrec Hid.
  destruct (fetch_today_matchups_cells _ _ _ Hdf) as [m [Hm Hcells]].
  destruct Hm as [Hempty | [ps [Hps Hidx]]].
  - split; intros Hc; unfold cell in Hc; rewrite Hempty in Hc;
      destruct (index_of _ (columns df)); try discriminate; destruct n; discriminate.
  - destruct (stats_of_listed_pitcher _ _ _ _ _ _ _ _ Hps Hidx Hsp Hit Hin Hrec Hid)
      as [He Hs].
    destruct (Hcells n (VInt k)) as [Hhome Haway]. split; intros Hc.
    + destruct (Hhome Hc) as [-> ->]. auto.
    + destruct (Haway Hc) as [-> ->]. auto.
Qed.

Lemma matchup_stats_of_listed_pitcher_witness :
  cell (match Hitters.fetch_today_matchups Samples.schedule Samples.pitchers with
        | Ok df => df
        | Raise _ => mkDF [] []
        end) 0 "Home_ERA"
  = Some (VStr "3.50").
Proof.
  refine (proj1 (proj1 (matchup_stats_of_listed_pitcher
                          Samples.schedule Samples.pitchers _ 0 1 _ _ _
                          [("Pitcher", VStr "P1"); ("Player_ID", VInt 1); ("SO", VInt 80);
                           ("ERA", VStr "3.50"); ("Games", VInt 12); ("IP", VStr "70.1");
                           ("Wins", VInt 6); ("Losses", VInt 3)]
                          _ _ _ _ _ _) _)).
  - vm_compute. reflexivity.
  - vm_compute. reflexivity.
  - reflexivity.
  - left. reflexivity.
  - reflexivity.
  - reflexivity.
  - vm_compute. reflexivity.
Defined.

Section PitcherLeaderboardShape.

Import Hitters.

Lemma matchups_frame_not_empty (g : value) (gs : list value) (ms : list record) :
  mapM matchup_record (g :: gs) = Ok ms -> empty (pd_DataFrame ms) = false.
Proof.
  cbn [mapM]. intros H.
  apply bind_Ok_inv in H as [r [Hr H]]. apply bind_Ok_inv in H as [rs [_ H]].
  injection H as <-. unfold empty. cbn [pd_DataFrame columns rows map].
  now rewrite (matchup_record_keys _ _ Hr).
Qed.

Lemma distinct_keys_repeat (pre mid post : list value) (a b : value) :
  key_eqb a b = true ->
  distinct_keys (pre ++ a :: mid ++ b :: post) = false.
Proof.
  intros He. induction pre as [| p pre IH]; cbn [app distinct_keys].
  - assert (T : existsb (key_eqb a) (mid ++ b :: post) = true).
    { apply existsb_exists. exists b. split; [| exact He].
      apply in_or_app. right. now left. }
    now rewrite T.
  - rewrite IH. apply andb_false_r.
Qed.

End PitcherLeaderboardShape.

(** X23.  With at least one game on the schedule, the matchup builder
    needs a pitcher leaderboard it can index by player: a leaderboard
    without splits makes it fail with a key error, and a leaderboard that
    lists the same integer identifier twice makes it fail with a value
    error. *)
Theorem matchups_need_indexable_pitchers
    (body first : record) (rest gs : list value) (g : value) (ms : list record)
    (pitchers : value) :
  assoc "dates" body = Some (VList (VDict first :: rest)) ->
  assoc "games" first = Some (VList (g :: gs)) ->
  mapM Hitters.matchup_record (g :: gs) = Ok ms ->
  (Hitters.stats_splits pitchers = Ok (VList []) ->
   Hitters.fetch_today_matchups (VDict body) pitchers = Raise KeyError)
  /\ (forall pre mid post s1 s2 r1 r2 recs k,
        Hitters.stats_splits pitchers = Ok (VList (pre ++ s1 :: mid ++ s2 :: post)) ->
        mapM Hitters.pitcher_record (pre ++ s1 :: mid ++ s2 :: post) = Ok recs ->
        Hitters.pitcher_record s1 = Ok r1 ->
        Hitters.pitcher_record s2 = Ok r2 ->
        assoc "Player_ID" r1 = Some (VInt k) ->
        assoc "Player_ID" r2 = Some (VInt k) ->
        Hitters.fetch_today_matchups (VDict body) pitchers = Raise ValueError).
Proof.
  intros Hd Hg Hm.
  assert (Hstart :
             Hitters.fetch_today_matchups (VDict body) pitchers
             = (pitcher_stats <- Hitters.fetch_top50_pitchers pitchers ;;
                stats_map <- Hitters.index_to_dict pitcher_stats "Player_ID" ;;
                df <- Hitters.attach_side stats_map "Home" (pd_DataFrame ms) ;;
                df <- Hitters.attach_side stats_map "Away" df ;;
                Ok df)).
  { unfold Hitters.fetch_today_matchups.
    rewrite get_dict, Hd. cbn [bind getidx nth_error].
    rewrite get_dict, Hg. cbn [bind iter]. rewrite Hm. cbn [bind].
    now rewrite (matchups_frame_not_empty _ _ _ Hm). }
  rewrite Hstart. clear Hstart. split.
  - intros Hs. unfold Hitters.fetch_top50_pitchers. rewrite Hs. reflexivity.
  - intros pre mid post s1 s2 r1 r2 recs k Hs Hrecs H1 H2 Hk1 Hk2.
    unfold Hitters.fetch_top50_pitchers. rewrite Hs. cbn [bind iter].
    rewrite Hrecs. cbn [bind].
    pose proof Hrecs as HF. apply mapM_Forall2 in HF.
    assert (Hkeys : Forall (fun r => map fst r
                                     = ["Pitcher"; "Player_ID"; "SO"; "ERA"; "Games"; "IP";
                                        "Wins"; "Losses"]) recs).
    { clear - HF. induction HF; constructor; eauto using pitcher_record_keys. }
    (* the records, split like the items *)
    apply Forall2_app_inv_l in HF as [rpre [rrest [Hpre [Hrest ->]]]].
    inversion Hrest as [| ? r1' ? rrest' H1' Hrest']; subst.
    apply Forall2_app_inv_l in Hrest' as [rmid [rrest2 [Hmid [Hrest2 ->]]]].
    inversion Hrest2 as [| ? r2' ? rpost H2' Hpost]; subst.
    assert (r1' = r1) by congruence. assert (r2' = r2) by congruence. subst r1' r2'.
    set (recs := rpre ++ r1 :: rmid ++ r2 :: rpost) in *.
    assert (Hcols : columns (pd_DataFrame recs)
                    = ["Pitcher"; "Player_ID"; "SO"; "ERA"; "Games"; "IP"; "Wins";
                       "Losses"]).
    { assert (Hne : exists r0 rs, recs = r0 :: rs).
      { unfold recs. destruct rpre; cbn; eauto. }
      destruct Hne as [r0 [rs E]]. rewrite E in *. cbn [pd_DataFrame columns].
      now inversion Hkeys. }
    assert (Hrows : rows (pd_DataFrame recs) = map (map snd) recs).
    { apply (pd_DataFrame_rows
               ["Pitcher"; "Player_ID"; "SO"; "ERA"; "Games"; "IP"; "Wins"; "Losses"]);
        [apply NoDup_strings; reflexivity | exact Hkeys]. }
    unfold Hitters.index_to_dict. rewrite Hcols.
    cbn [index_of String.eqb Ascii.eqb Bool.eqb]. rewrite Hrows, map_map.
    assert (Hdup : Hitters.distinct_keys (map (fun r => nth 1 (map snd r) VNone) recs)
                   = false).
    { unfold recs. rewrite map_app. cbn [map]. rewrite map_app. cbn [map].
      apply distinct_keys_repeat.
      rewrite Forall_forall in Hkeys.
      assert (In1 : In r1 recs) by (unfold recs; apply in_or_app; right; now left).
      assert (In2 : In r2 recs).
      { unfold recs. apply in_or_app. right. right. apply in_or_app. right. now left. }
      destruct (pitcher_row_dict r1 (Hkeys r1 In1)) as [E1 _].
      destruct (pitcher_row_dict r2 (Hkeys r2 In2)) as [E2 _].
      assert (N1 : nth 1 (map snd r1) VNone = VInt k) by congruence.
      assert (N2 : nth 1 (map snd r2) VNone = VInt k) by congruence.
      rewrite N1, N2. unfold Hitters.key_eqb. cbn. apply Qeq_bool_iff. reflexivity. }
    rewrite Hdup. reflexivity.
Qed.

Lemma matchups_need_indexable_pitchers_witness :
  Hitters.fetch_today_matchups Samples.schedule Samples2.no_pitchers = Raise KeyError
  /\ Hitters.fetch_today_matchups Samples.schedule Samples2.pitcher_listed_twice
     = Raise ValueError.
Proof.
  split.
  - refine (proj1 (matchups_need_indexable_pitchers
                     _ _ [] _ _ _ Samples2.no_pitchers _ _ _) _).
    + reflexivity.
    + reflexivity.
    + vm_compute. reflexivity.
    + reflexivity.
  - refine (proj2 (matchups_need_indexable_pitchers
                     _ _ [] _ _ _ Samples2.pitcher_listed_twice _ _ _)
              [] [Samples2.pitcher_split 2 "P2" "4.80" 70] []
              (Samples2.pitcher_split 1 "P1" "3.50" 80)
              (Samples2.pitcher_split 1 "P1" "2.10" 30) _ _ _ 1 _ _ _ _ _ _).
    + reflexivity.
    + reflexivity.
    + vm_compute. reflexivity.
    + reflexivity.
    + vm_compute. reflexivity.
    + vm_compute. reflexivity.
    + vm_compute. reflexivity.
    + reflexivity.
    + reflexivity.
Defined.

Section MatchupRows.

Import Hitters.

Lemma index_of_nth_error (c : string) (cols : list string) (j : nat) :
  index_of c cols = Some j -> nth_error cols j = Some c.
Proof.
  revert j. induction cols as [| c' cs IH]; intros j; cbn; [discriminate |].
  destruct (String.eqb_spec c c') as [-> | _].
  - now intros [= <-].
  - destruct (index_of c cs) as [i |]; [| discriminate].
    intros [= <-]. cbn. now apply IH.
Qed.

Lemma assoc_In (c : string) (r : record) :
  In c (map fst r) -> exists v, assoc c r = Some v.
Proof.
  induction r as [| [k v] r IH]; cbn; [contradiction |].
  destruct (String.eqb_spec c k) as [-> | Hne]; [eauto |].
  intros [E | Hin]; [congruence | auto].
Qed.

(** A cell of the frame of records with the same keys is the record's
    entry. *)
Lemma cell_pd_DataFrame (keys : list string) (recs : list record) (n : nat)
    (r : record) (c : string) :
  Forall (fun rc => map fst rc = keys) recs ->
  nth_error recs n = Some r ->
  In c keys ->
  cell (pd_DataFrame recs) n c = assoc c r.
Proof.
  intros HF Hn Hc.
  destruct recs as [| r0 rs]; [destruct n; discriminate |].
  assert (H0 : map fst r0 = keys) by now inversion HF.
  assert (Hr : map fst r = keys).
  { rewrite Forall_forall in HF. apply HF. eapply nth_error_In; eauto. }
  destruct (index_of_In _ _ Hc) as [j Hj].
  unfold cell. cbn [pd_DataFrame columns rows]. rewrite H0, Hj.
  rewrite nth_error_map, Hn. cbn [option_map].
  rewrite nth_error_map, (index_of_nth_error _ _ _ Hj). cbn [option_map].
  rewrite <- Hr in Hc. destruct (assoc_In _ _ Hc) as [v ->]. reflexivity.
Qed.

(** The frame the matchup builder returns: the frame of the matchup
    records, with the four statistics columns joined on when there is a
    matchup. *)
Lemma fetch_today_matchups_frame (schedule pitchers : value) (df : DataFrame) :
  fetch_today_matchups schedule pitchers = Ok df ->
  exists dates first games items ms,
    get schedule "dates" (VList []) = Ok dates
    /\ getidx dates 0 = Ok first
    /\ get first "games" (VList []) = Ok games
    /\ iter games = Ok items
    /\ mapM matchup_record items = Ok ms
    /\ (ms = [] /\ df = mkDF [] []
        \/ exists m,
          df = extend2 "Away_ERA" "Away_SO" (stat_or_empty m "ERA") (stat_or_empty m "SO") 5
                 (extend2 "Home_ERA" "Home_SO" (stat_or_empty m "ERA")
                          (stat_or_empty m "SO") 3 (pd_DataFrame ms))).
Proof.
  unfold fetch_today_matchups. intros H.
  apply bind_Ok_inv in H as [dates [Hd H]].
  apply bind_Ok_inv in H as [first [Hf H]].
  apply bind_Ok_inv in H as [games [Hg H]].
  apply bind_Ok_inv in H as [items [Hi H]].
  apply bind_Ok_inv in H as [ms [Hm H]].
  exists dates, first, games, items, ms. repeat (split; [assumption |]).
  cbv zeta in H. destruct ms as [| r rs].
  - left. cbn in H. injection H as <-. auto.
  - right.
    assert (Hk : map fst r = ["Home_Team"; "Away_Team"; "Home_Starter"; "Home_Starter_ID";
                              "Away_Starter"; "Away_Starter_ID"]).
    { destruct items as [| g gs]; [discriminate |].
      cbn [mapM] in Hm. bind_inv Hm. injection Hm as -> _.
      eapply matchup_record_keys; eauto. }
    set (df0 := pd_DataFrame (r :: rs)) in *.
    assert (Hc0 : columns df0 = ["Home_Team"; "Away_Team"; "Home_Starter";
                                 "Home_Starter_ID"; "Away_Starter"; "Away_Starter_ID"]).
    { unfold df0. cbn [pd_DataFrame columns]. exact Hk. }
    assert (Hwf0 : well_formed df0) by apply pd_DataFrame_well_formed.
    assert (He : empty df0 = false).
    { unfold empty. rewrite Hc0. unfold df0. reflexivity. }
    rewrite He in H. cbn [negb] in H.
    apply bind_Ok_inv in H as [ps [Hps H]].
    apply bind_Ok_inv in H as [m [Hsm H]].
    apply bind_Ok_inv in H as [df1 [H1 H]].
    apply bind_Ok_inv in H as [df2 [H2 H]].
    injection H as <-. exists m.
    apply (attach_side_extend _ "Home" _ _ 3) in H1;
      [| assumption | now rewrite Hc0 | now rewrite Hc0 | now rewrite Hc0 | discriminate].
    assert (Hwf1 : well_formed df1) by (subst df1; now apply extend2_well_formed).
    assert (Hc1 : columns df1 = ["Home_Team"; "Away_Team"; "Home_Starter";
                                 "Home_Starter_ID"; "Away_Starter"; "Away_Starter_ID";
                                 "Home_ERA"; "Home_SO"]).
    { subst df1. unfold extend2. cbn [columns]. now rewrite Hc0. }
    apply (attach_side_extend _ "Away" _ _ 5) in H2;
      [| assumption | now rewrite Hc1 | now rewrite Hc1 | now rewrite Hc1 | discriminate].
    subst df2 df1. reflexivity.
Qed.

End MatchupRows.

(** X24.  The table of the matchup builder holds exactly one row per game
    of the schedule's first date entry, in schedule order, and the row's
    team names, starter names and starter identifiers are those of the
    record built from that game: no game is dropped, duplicated or moved
    by the join of the pitcher statistics. *)
Theorem matchups_row_per_game (schedule pitchers : value) (df : DataFrame) :
  Hitters.fetch_today_matchups schedule pitchers = Ok df ->
  exists dates first games items,
    get schedule "dates" (VList []) = Ok dates
    /\ getidx dates 0 = Ok first
    /\ get first "games" (VList []) = Ok games
    /\ iter games = Ok items
    /\ List.length (rows df) = List.length items
    /\ (forall n g,
          nth_error items n = Some g ->
          exists r,
            Hitters.matchup_record g = Ok r
            /\ forall c,
                In c ["Home_Team"; "Away_Team"; "Home_Starter"; "Home_Starter_ID";
                      "Away_Starter"; "Away_Starter_ID"] ->
                cell df n c = assoc c r).
Proof.
  intros H.
  destruct (fetch_today_matchups_frame _ _ _ H)
    as [dates [first [games [items [ms [Hd [Hf [Hg [Hi [Hm Hdf]]]]]]]]]].
  exists dates, first, games, items. repeat (split; [assumption |]).
  apply mapM_Forall2 in Hm.
  assert (Hkeys : Forall (fun r => map fst r
                                   = ["Home_Team"; "Away_Team"; "Home_Starter";
                                      "Home_Starter_ID"; "Away_Starter"; "Away_Starter_ID"])
                         ms).
  { clear - Hm. induction Hm; constructor; eauto using matchup_record_keys. }
  destruct Hdf as [[-> ->] | [m ->]].
  - inversion Hm; subst. split; [reflexivity |]. intros [| n] g; discriminate.
  - split.
    + unfold extend2. cbn [rows]. rewrite !length_map.
      destruct ms as [| r rs]; [now inversion Hm |].
      cbn [pd_DataFrame rows]. rewrite length_map. symmetry.
      eapply Forall2_length; eauto.
    + intros n g Hn.
      assert (Hr : exists r, nth_error ms n = Some r /\ Hitters.matchup_record g = Ok r).
      { clear - Hm Hn. revert n Hn. induction Hm as [| g0 r0 items ms H0 _ IH];
          intros [| n] Hn; cbn in Hn; try discriminate.
        - exists r0. split; [reflexivity | congruence].
        - now apply IH. }
      destruct Hr as [r [Hnr Hrec]]. exists r. split; [assumption |].
      intros c Hc.
      assert (Hc0 : columns (pd_DataFrame ms)
                    = ["Home_Team"; "Away_Team"; "Home_Starter"; "Home_Starter_ID";
                       "Away_Starter"; "Away_Starter_ID"]).
      { destruct ms as [| r0 rs]; [destruct n; discriminate |].
        cbn [pd_DataFrame columns]. now inversion Hkeys. }
      rewrite cell_extend2_old.
      * rewrite cell_extend2_old.
        -- eapply cell_pd_DataFrame; eauto.
        -- apply pd_DataFrame_well_formed.
        -- now rewrite Hc0.
      * apply extend2_well_formed, pd_DataFrame_well_formed.
      * unfold extend2. cbn [columns]. rewrite Hc0. apply in_or_app. now left.
Qed.

Lemma matchups_row_per_game_witness :
  exists dates first games items,
    get Samples.schedule "dates" (VList []) = Ok dates
    /\ getidx dates 0 = Ok first
    /\ get first "games" (VList []) = Ok games
    /\ iter games = Ok items
    /\ List.length (rows (match Hitters.fetch_today_matchups Samples.schedule
                                  Samples.pitchers with
                          | Ok df => df
                          | Raise _ => mkDF [] []
                          end))
       = List.length items
    /\ (forall n g,
          nth_error items n = Some g ->
          exists r,
            Hitters.matchup_record g = Ok r
            /\ forall c,
                In c ["Home_Team"; "Away_Team"; "Home_Starter"; "Home_Starter_ID";
                      "Away_Starter"; "Away_Starter_ID"] ->
                cell (match Hitters.fetch_today_matchups Samples.schedule
                              Samples.pitchers with
                      | Ok df => df
                      | Raise _ => mkDF [] []
                      end) n c = assoc c r).
Proof.
  refine (matchups_row_per_game Samples.schedule Samples.pitchers _ _).
  vm_compute. reflexivity.
Defined.

Section ScriptSheets.

Lemma write_sheets_chain (daily top50 pitchers matchups : DataFrame)
    (date_str : string) (f : file) :
  exists note,
    Hitters.write_sheets daily top50 date_str (Some pitchers) (Some matchups) f
    = Ok (Book
            (let wb1 := to_excel (sheets_before f) (date_str ++ "_HR_Hitters")%string daily in
             let wb2 := to_excel wb1 (date_str ++ "_Top_HR_Batters")%string top50 in
             let wb3 := to_excel wb2 (date_str ++ "_Top_Pitchers")%string pitchers in
             if empty matchups then wb3
             else to_excel wb3 (date_str ++ "_Matchups")%string matchups),
          note).
Proof.
  unfold Hitters.write_sheets.
  destruct f as [| | wb]; cbn [exists_ is_zipfile negb andb sheets_before]; cbv zeta.
  - change (open_writer "w" Missing) with (Ok (@nil (string * DataFrame))). cbn [bind].
    destruct (empty matchups); eexists; reflexivity.
  - change (open_writer "w" Missing) with (Ok (@nil (string * DataFrame))). cbn [bind].
    destruct (empty matchups); eexists; reflexivity.
  - change (open_writer "a" (Book wb)) with (Ok wb). cbn [bind].
    destruct (empty matchups); eexists; reflexivity.
Qed.

Lemma written_four_sheets (wb : workbook) (daily top50 pitchers matchups : DataFrame)
    (date_str : string) :
  let wb1 := to_excel wb (date_str ++ "_HR_Hitters")%string daily in
  let wb2 := to_excel wb1 (date_str ++ "_Top_HR_Batters")%string top50 in
  let wb3 := to_excel wb2 (date_str ++ "_Top_Pitchers")%string pitchers in
  let wb4 := if empty matchups then wb3
             else to_excel wb3 (date_str ++ "_Matchups")%string matchups in
  sheet (date_str ++ "_HR_Hitters")%string wb4 = Some daily
  /\ sheet (date_str ++ "_Top_HR_Batters")%string wb4 = Some top50
  /\ sheet (date_str ++ "_Top_Pitchers")%string wb4 = Some pitchers
  /\ sheet (date_str ++ "_Matchups")%string wb4
     = (if empty matchups then sheet (date_str ++ "_Matchups")%string wb
        else Some matchups).
Proof.
  cbv zeta.
  assert (N12 : (date_str ++ "_HR_Hitters")%string <> (date_str ++ "_Top_HR_Batters")%string)
    by (apply append_neq; discriminate).
  assert (N13 : (date_str ++ "_HR_Hitters")%string <> (date_str ++ "_Top_Pitchers")%string)
    by (apply append_neq; discriminate).
  assert (N14 : (date_str ++ "_HR_Hitters")%string <> (date_str ++ "_Matchups")%string)
    by (apply append_neq; discriminate).
  assert (N23 : (date_str ++ "_Top_HR_Batters")%string <> (date_str ++ "_Top_Pitchers")%string)
    by (apply append_neq; discriminate).
  assert (N24 : (date_str ++ "_Top_HR_Batters")%string <> (date_str ++ "_Matchups")%string)
    by (apply append_neq; discriminate).
  assert (N34 : (date_str ++ "_Top_Pitchers")%string <> (date_str ++ "_Matchups")%string)
    by (apply append_neq; discriminate).
  assert (N41 : (date_str ++ "_Matchups")%string <> (date_str ++ "_HR_Hitters")%string)
    by (apply append_neq; discriminate).
  assert (N42 : (date_str ++ "_Matchups")%string <> (date_str ++ "_Top_HR_Batters")%string)
    by (apply append_neq; discriminate).
  assert (N43 : (date_str ++ "_Matchups")%string <> (date_str ++ "_Top_Pitchers")%string)
    by (apply append_neq; discriminate).
  destruct (empty matchups); repeat split.
  - rewrite (sheet_to_excel_other _ _ _ _ N13), (sheet_to_excel_other _ _ _ _ N12).
    apply sheet_to_excel_same.
  - rewrite (sheet_to_excel_other _ _ _ _ N23). apply sheet_to_excel_same.
  - apply sheet_to_excel_same.
  - now rewrite (sheet_to_excel_other _ _ _ _ N43), (sheet_to_excel_other _ _ _ _ N42),
      (sheet_to_excel_other _ _ _ _ N41).
  - rewrite (sheet_to_excel_other _ _ _ _ N14), (sheet_to_excel_other _ _ _ _ N13),
      (sheet_to_excel_other _ _ _ _ N12).
    apply sheet_to_excel_same.
  - rewrite (sheet_to_excel_other _ _ _ _ N24), (sheet_to_excel_other _ _ _ _ N23).
    apply sheet_to_excel_same.
  - rewrite (sheet_to_excel_other _ _ _ _ N34). apply sheet_to_excel_same.
  - apply sheet_to_excel_same.
Qed.

Lemma fetch_daily_date (date_str : string) (runs : value) (daily : DataFrame * string) :
  Hitters.fetch_daily date_str runs = Ok daily -> snd daily = date_str.
Proof.
  unfold Hitters.fetch_daily. intros H. bind_inv H. now injection H as <-.
Qed.

End ScriptSheets.

(** X25.  When the hitters script succeeds, the workbook it leaves holds
    under the date's four sheet names the daily table, the enriched
    leaderboard, the pitcher leaderboard and the matchup table, each as
    fetched in this run; only an empty matchup table is not written, and
    then a matchup sheet is there only if the workbook had one before. *)
Theorem hitters_script_sheets
    (date_str : string) (runs top50 : value) (sc : list sample)
    (pitchers schedule pitchers' : value) (output_xlsx : file)
    (out : file * Hitters.notice) :
  HittersScript.main date_str runs top50 sc pitchers schedule pitchers' output_xlsx
  = Ok out ->
  exists daily top50_df enriched pitchers_df matchups_df wb,
    Hitters.fetch_daily date_str runs = Ok (daily, date_str)
    /\ Hitters.fetch_top50 top50 = Ok top50_df
    /\ Hitters.enrich_top50 sc top50_df = Ok enriched
    /\ Hitters.fetch_top50_pitchers pitchers = Ok pitchers_df
    /\ Hitters.fetch_today_matchups schedule pitchers' = Ok matchups_df
    /\ fst out = Book wb
    /\ sheet (date_str ++ "_HR_Hitters")%string wb = Some daily
    /\ sheet (date_str ++ "_Top_HR_Batters")%string wb = Some enriched
    /\ sheet (date_str ++ "_Top_Pitchers")%string wb = Some pitchers_df
    /\ sheet (date_str ++ "_Matchups")%string wb
       = (if empty matchups_df
          then sheet (date_str ++ "_Matchups")%string (sheets_before output_xlsx)
          else Some matchups_df).
Proof.
  unfold HittersScript.main. intros H.
  apply bind_Ok_inv in H as [[daily d] [Hdaily H]].
  apply bind_Ok_inv in H as [top50_df [Htop H]].
  apply bind_Ok_inv in H as [enriched [Henr H]].
  apply bind_Ok_inv in H as [pitchers_df [Hpit H]].
  apply bind_Ok_inv in H as [matchups_df [Hmat H]].
  pose proof (fetch_daily_date _ _ _ Hdaily) as Hd. cbn [fst snd] in *. subst d.
  destruct (write_sheets_chain daily enriched pitchers_df matchups_df date_str output_xlsx)
    as [note Hw].
  rewrite Hw in H. injection H as <-. cbn [fst].
  destruct (written_four_sheets (sheets_before output_xlsx) daily enriched pitchers_df
              matchups_df date_str) as [S1 [S2 [S3 S4]]].
  cbv zeta in S1, S2, S3, S4.
  exists daily, top50_df, enriched, pitchers_df, matchups_df. eexists.
  split; [exact Hdaily |]. split; [exact Htop |]. split; [exact Henr |].
  split; [exact Hpit |]. split; [exact Hmat |]. split; [reflexivity |].
  split; [exact S1 |]. split; [exact S2 |]. split; [exact S3 | exact S4].
Qed.

Lemma hitters_script_sheets_witness :
  exists daily top50_df enriched pitchers_df matchups_df wb,
    Hitters.fetch_daily "2025-06-10"
      (VList [VDict [("batter_name", VStr "B2"); ("hit_speed", VFloat 108.5)]])
    = Ok (daily, "2025-06-10")
    /\ Hitters.fetch_top50 Samples2.top50_response = Ok top50_df
    /\ Hitters.enrich_top50 Samples.statcast top50_df = Ok enriched
    /\ Hitters.fetch_top50_pitchers Samples.pitchers = Ok pitchers_df
    /\ Hitters.fetch_today_matchups Samples.schedule Samples.pitchers = Ok matchups_df
    /\ fst Samples2.script_output = Book wb
    /\ sheet ("2025-06-10" ++ "_HR_Hitters")%string wb = Some daily
    /\ sheet ("2025-06-10" ++ "_Top_HR_Batters")%string wb = Some enriched
    /\ sheet ("2025-06-10" ++ "_Top_Pitchers")%string wb = Some pitchers_df
    /\ sheet ("2025-06-10" ++ "_Matchups")%string wb
       = (if empty matchups_df
          then sheet ("2025-06-10" ++ "_Matchups")%string (sheets_before Missing)
          else Some matchups_df).
Proof.
  refine (hitters_script_sheets "2025-06-10"
            (VList [VDict [("batter_name", VStr "B2"); ("hit_speed", VFloat 108.5)]])
            Samples2.top50_response Samples.statcast Samples.pitchers Samples.schedule
            Samples.pitchers Missing Samples2.script_output _).
  vm_compute. reflexivity.
Defined.
